(** * Prism client (helpers/Prism.js): a shallow embedding and its properties

    The Prism helper is a stateful client object.  Its methods either
    return a plain value (the URL builders, [setSession]) or a bluebird
    promise built as a chain [prepare().then(..).spread(..).catch(..)].

    The embedding keeps three things apart, because the source does:
    - a method can throw synchronously, before any promise exists
      ([prepare] throws its [UserError]s outside of [P.try]);
    - a promise is resolved or rejected once the event loop has run it;
    - every POST goes through the request client of the API helper, and
      is recorded on the wire of the [World].

    The API helper (helpers/api.js) and the node modules [path] and
    [fs] are collaborators of this file; they are taken as a record of
    functions, [External], and each of their calls may throw.  A
    [UserError] is an error of its own kind, carrying its message. *)

From Stdlib Require Import ZArith String Ascii List Bool DecimalString.
Import ListNotations.
Open Scope string_scope.
Open Scope Z_scope.

Set Implicit Arguments.
Set Warnings "-register-all".

(** ** JavaScript values *)

(** The values that travel through the client: option fields, method
    arguments and JSON bodies.  Numbers are the integer-valued ones
    (ports, priorities, status codes); [VNum n] stands for a number of
    the program when [n] is a safe integer.  An object is its list of
    properties in the order they were added; a property name occurs
    once.  [plain], below, says when a value is such a piece of
    data. *)
Inductive value : Type :=
| VUndefined
| VNull
| VBool (b : bool)
| VNum (n : Z)
| VStr (s : string)
| VArr (items : list value)
| VObj (fields : list (string * value)).

(** ToBoolean, as used by [if(x)], [!x] and [x || y]. *)
Definition truthy (v : value) : bool :=
  match v with
  | VUndefined | VNull => false
  | VBool b => b
  | VNum n => negb (n =? 0)
  | VStr s => negb (s =? EmptyString)%string
  | VArr _ | VObj _ => true
  end.

(** [a || b] *)
Definition js_or (a b : value) : value := if truthy a then a else b.

(** The decimal digits of an integer, with a minus sign when it is
    negative: what the runtime prints for a safe integer. *)
Definition string_of_Z (n : Z) : string := NilZero.string_of_int (Z.to_int n).

Fixpoint join (sep : string) (l : list string) : string :=
  match l with
  | [] => EmptyString
  | [s] => s
  | s :: rest => s ++ sep ++ join sep rest
  end.

(** ToString, as applied by [+] to the right operand of a string: the
    text the runtime gives for plain data. *)
Fixpoint to_string (v : value) : string :=
  match v with
  | VUndefined => "undefined"
  | VNull => "null"
  | VBool true => "true"
  | VBool false => "false"
  | VNum n => string_of_Z n
  | VStr s => s
  | VArr items =>
      join ","
        ((fix each (l : list value) : list string :=
            match l with
            | [] => []
            | VUndefined :: r => EmptyString :: each r
            | VNull :: r => EmptyString :: each r
            | x :: r => to_string x :: each r
            end) items)
  | VObj _ => "[object Object]"
  end.

(** ['lit' + x]: every [+] of the source has a string as its left
    operand, so it is always a concatenation. *)
Definition plus (s : string) (v : value) : string := s ++ to_string v.

Coercion VStr : string >-> value.
Notation "s +++ v" := (plus s v) (at level 50, left associativity).

Fixpoint assoc (k : string) (fields : list (string * value)) : option value :=
  match fields with
  | [] => None
  | (k', v) :: rest => if (k =? k')%string then Some v else assoc k rest
  end.

(** Number.MAX_SAFE_INTEGER is 2^53 - 1: up to there every integer is
    a number of its own and is printed with all its digits. *)
Definition safe_integer (n : Z) : bool := Z.abs n <? 2 ^ 53.

(** Property names that the runtime looks up on an object when it
    converts or serializes it, or that name its prototype. *)
Definition consulted_names : list string :=
  ["toString"; "valueOf"; "toJSON"; "__proto__"].

Fixpoint distinct (names : list string) : bool :=
  match names with
  | [] => true
  | k :: rest => negb (existsb (String.eqb k) rest) && distinct rest
  end.

(** A plain piece of data, as a program can hold it: every number is a
    safe integer, the property names of an object are distinct, and no
    property stands in for a member that the runtime consults.  On
    plain data [to_string] and [stringify] are the texts the runtime
    produces. *)
Fixpoint plain (v : value) : bool :=
  match v with
  | VNum n => safe_integer n
  | VArr items =>
      (fix all (l : list value) : bool :=
         match l with
         | [] => true
         | x :: r => plain x && all r
         end) items
  | VObj fields =>
      distinct (map fst fields) &&
      forallb (fun k => negb (existsb (String.eqb k) consulted_names))
              (map fst fields) &&
      (fix all (l : list (string * value)) : bool :=
         match l with
         | [] => true
         | (_, x) :: r => plain x && all r
         end) fields
  | _ => true
  end.

(** ** Errors and completions *)

(** What the client throws itself is a [UserError] with its message; a
    call or a property read on something that does not have it is the
    runtime's [TypeError]; anything else a collaborator throws is
    [Raised] with the thrown value. *)
Inductive error : Type :=
| UserError (message : string)
| TypeError
| Raised (thrown : value).

Inductive result (A : Type) : Type :=
| Ok (a : A)
| Err (e : error).
Arguments Ok {A} a.
Arguments Err {A} e.

(** [o.name] *)
Definition get_prop (o : value) (name : string) : result value :=
  match o with
  | VUndefined | VNull => Err TypeError
  | VObj fields =>
      match assoc name fields with
      | Some v => Ok v
      | None => Ok VUndefined
      end
  | _ => Ok VUndefined
  end.

(** ** JSON.stringify *)

Definition dquote : ascii := ascii_of_nat 34.
Definition backslash : ascii := ascii_of_nat 92.

Definition hex_digit (n : nat) : ascii :=
  if Nat.ltb n 10 then ascii_of_nat (48 + n) else ascii_of_nat (87 + n).

Definition escape_char (c : ascii) : string :=
  let n := nat_of_ascii c in
  if Nat.eqb n 34 then String backslash (String dquote EmptyString)
  else if Nat.eqb n 92 then String backslash (String backslash EmptyString)
  else if Nat.eqb n 8 then String backslash "b"
  else if Nat.eqb n 9 then String backslash "t"
  else if Nat.eqb n 10 then String backslash "n"
  else if Nat.eqb n 12 then String backslash "f"
  else if Nat.eqb n 13 then String backslash "r"
  else if Nat.ltb n 32 then
    String backslash
      (String "u" (String "0" (String "0"
         (String (hex_digit (Nat.div n 16))
            (String (hex_digit (Nat.modulo n 16)) EmptyString)))))
  else String c EmptyString.

Fixpoint escape (s : string) : string :=
  match s with
  | EmptyString => EmptyString
  | String c rest => escape_char c ++ escape rest
  end.

Definition quote (s : string) : string :=
  String dquote (escape s ++ String dquote EmptyString).

(** The value of a property name that is an array index: the canonical
    decimal text of an integer from 0 to 2^32 - 2. *)
Definition digit_of (c : ascii) : option Z :=
  let n := Z.of_nat (nat_of_ascii c) in
  if (48 <=? n) && (n <=? 57) then Some (n - 48) else None.

Fixpoint digits_value (acc : Z) (s : string) : option Z :=
  match s with
  | EmptyString => Some acc
  | String c rest =>
      match digit_of c with
      | Some d => digits_value (10 * acc + d) rest
      | None => None
      end
  end.

Definition array_index (k : string) : option Z :=
  match k with
  | EmptyString => None
  | _ =>
      match digits_value 0 k with
      | Some n =>
          if (string_of_Z n =? k)%string && (n <=? 4294967294)
          then Some n else None
      | None => None
      end
  end.

Fixpoint insert_index {A} (n : Z) (p : A) (sorted : list (Z * A))
  : list (Z * A) :=
  match sorted with
  | [] => [(n, p)]
  | (m, q) :: rest =>
      if n <? m then (n, p) :: sorted else (m, q) :: insert_index n p rest
  end.

(** The order in which the runtime goes through the properties of an
    object: those named by an array index first, by ascending index,
    then the others in the order they were added. *)
Definition own_property_order {A} (props : list (string * A))
  : list (string * A) :=
  map snd
    (fold_left
       (fun sorted kp =>
          match array_index (fst kp) with
          | Some n => insert_index n kp sorted
          | None => sorted
          end) props []) ++
  filter (fun kp => match array_index (fst kp) with
                    | Some _ => false
                    | None => true
                    end) props.

(** The serialization of a value, [None] where JSON.stringify gives
    undefined.  An undefined array item is written null; an undefined
    property is left out; the properties of an object are written in
    their own-property order. *)
Fixpoint stringify (v : value) : option string :=
  match v with
  | VUndefined => None
  | VNull => Some "null"
  | VBool true => Some "true"
  | VBool false => Some "false"
  | VNum n => Some (string_of_Z n)
  | VStr s => Some (quote s)
  | VArr items =>
      Some ("[" ++
        join ","
          ((fix each (l : list value) : list string :=
              match l with
              | [] => []
              | x :: r =>
                  match stringify x with
                  | Some s => s :: each r
                  | None => "null" :: each r
                  end
              end) items) ++ "]")
  | VObj fields =>
      Some ("{" ++
        join ","
          (map (fun ks => quote (fst ks) ++ ":" ++ snd ks)
             (own_property_order
                ((fix each (l : list (string * value))
                    : list (string * string) :=
                    match l with
                    | [] => []
                    | (k, x) :: r =>
                        match stringify x with
                        | Some s => (k, s) :: each r
                        | None => each r
                        end
                    end) fields))) ++ "}")
  end.

Definition JSON_stringify (v : value) : value :=
  match stringify v with
  | Some s => VStr s
  | None => VUndefined
  end.


(** ** The client object and its collaborators *)

Module PrismOpts.
Record t : Type := { host : value; port : value }.
End PrismOpts.

Module Opts.
Record t : Type :=
  { username : value; password : value; domain : value; prism : PrismOpts.t }.
End Opts.

(** The options object handed to [postAsync]. *)
Module Request.
Record t : Type := { url : value; json : value; formData : option value }.
End Request.

(** [this.api] starts as the empty object and becomes a request client
  of the API helper in [connect]. *)
Inductive api_object (access : Type) : Type :=
| EmptyObject
| Access (a : access).
Arguments EmptyObject {access}.
Arguments Access {access} a.

(** What this file calls and does not define: the API helper
  ([api.setupAccess], [api.prism], [api.setSession] and the members
  [url], [postAsync], [validateResponse], [handleNetworkError] of the
  request clients it makes) and the node modules [path] and [fs].
  [access] is the type of a request client.  [access_post] answers a
  POST from the traffic so far, the issuing client and the request:
  [Ok (res, body)] is the resolved [[res, body]] pair.
  [access_validateResponse a] is the function that
  [a.validateResponse()] returns. *)
Record External (access : Type) : Type :=
{ api_setupAccess : string -> PrismOpts.t -> result access;
  api_prism : PrismOpts.t -> result access;
  api_setSession : value -> api_object access -> string -> result access;
  access_url : access -> string -> value;
  access_post :
    list (access * Request.t) -> access -> Request.t -> result (value * value);
  access_validateResponse : access -> value -> value -> result (value * value);
  access_handleNetworkError : access -> error -> result value;
  path_resolve : value -> result value;
  path_extname : value -> result string;
  fs_createReadStream : value -> result value }.

Record Prism (access : Type) : Type :=
{ opts : Opts.t;
  api : api_object access;
  authenticated : bool;
  connected : bool;
  session : value }.

(** The client together with the requests sent so far. *)
Record World (access : Type) : Type :=
{ that : Prism access;
  wire : list (access * Request.t) }.

(** How a call ends for its caller: it threw before returning, or it
  returned a promise that was resolved or rejected. *)
Inductive outcome (A : Type) : Type :=
| Thrown (e : error)
| Resolved (a : A)
| Rejected (e : error).
Arguments Thrown {A} e.
Arguments Resolved {A} a.
Arguments Rejected {A} e.

(** [String.prototype.replace('.', '')]: the first dot is removed. *)
Fixpoint replace_dot (s : string) : string :=
match s with
| EmptyString => EmptyString
| String c rest =>
    if Ascii.eqb c "."%char then rest else String c (replace_dot rest)
end.

(** The options a [new Prism(opts)] is given; a field left out keeps the
  constructor's default ([$load] merges into the defaults). *)
Module Load.
Record t : Type :=
  { username : option value;
    password : option value;
    domain : option value;
    prism_host : option value;
    prism_port : option value }.
Definition none : t :=
  {| username := None; password := None; domain := None;
     prism_host := None; prism_port := None |}.
End Load.

Definition or_default (o : option value) (d : value) : value :=
match o with Some v => v | None => d end.

Section Client.

Variable access : Type.
Variable ext : External access.

(** *** Computations on the world *)

Definition M (A : Type) : Type := World access -> result A * World access.

Definition ret {A} (a : A) : M A := fun w => (Ok a, w).
Definition throw {A} (e : error) : M A := fun w => (Err e, w).
Definition bind {A B} (m : M A) (f : A -> M B) : M B :=
  fun w => match m w with
           | (Ok a, w') => f a w'
           | (Err e, w') => (Err e, w')
           end.
Definition lift {A} (r : result A) : M A := fun w => (r, w).
Definition gets {A} (f : Prism access -> A) : M A := fun w => (Ok (f (that w)), w).
Definition modify (f : Prism access -> Prism access) : M unit :=
  fun w => (Ok tt, {| that := f (that w); wire := wire w |}).

Notation "x <- m ;; k" := (bind m (fun x => k))
  (at level 61, m at next level, right associativity).
Notation "m ;; k" := (bind m (fun _ => k))
  (at level 61, right associativity).

(** *** Assignments to the fields of [this] *)

Definition set_session (v : value) (p : Prism access) : Prism access :=
  {| opts := opts p; api := api p; authenticated := authenticated p;
     connected := connected p; session := v |}.
Definition set_authenticated (b : bool) (p : Prism access) : Prism access :=
  {| opts := opts p; api := api p; authenticated := b;
     connected := connected p; session := session p |}.
Definition set_connected (b : bool) (p : Prism access) : Prism access :=
  {| opts := opts p; api := api p; authenticated := authenticated p;
     connected := b; session := session p |}.
Definition set_api (a : api_object access) (p : Prism access) : Prism access :=
  {| opts := opts p; api := a; authenticated := authenticated p;
     connected := connected p; session := session p |}.
Definition set_prism (o : PrismOpts.t) (p : Prism access) : Prism access :=
  {| opts := {| Opts.username := Opts.username (opts p);
                Opts.password := Opts.password (opts p);
                Opts.domain := Opts.domain (opts p);
                Opts.prism := o |};
     api := api p; authenticated := authenticated p;
     connected := connected p; session := session p |}.
Definition set_prism_host (v : value) (p : Prism access) : Prism access :=
  set_prism {| PrismOpts.host := v;
               PrismOpts.port := PrismOpts.port (Opts.prism (opts p)) |} p.
Definition set_prism_port (v : value) (p : Prism access) : Prism access :=
  set_prism {| PrismOpts.host := PrismOpts.host (Opts.prism (opts p));
               PrismOpts.port := v |} p.

(** *** Promise chains *)

(** A method body up to the point where it returns: either it has a
    promise in hand, or it threw.  When it throws after a part of the
    chain was already built, that part is still run by the event
    loop; [orphan] is what it does to the world. *)
Inductive started (A : Type) : Type :=
| Started (p : M A)
| Threw (e : error) (orphan : World access -> World access).
Arguments Started {A} p.
Arguments Threw {A} e orphan.

Definition Chain (A : Type) : Type := World access -> started A.

(** [p.then(f)] *)
Definition then_ {A B} (c : started A) (f : A -> M B) : started B :=
  match c with
  | Started p => Started (bind p f)
  | Threw e o => Threw e o
  end.

(** [p.spread(h)], where evaluating the argument [h] may itself throw. *)
Definition spread {A B C} (c : started (A * B))
    (h : result (A -> B -> M C)) : started C :=
  match c with
  | Started p =>
      match h with
      | Ok f => Started (bind p (fun ab => f (fst ab) (snd ab)))
      | Err e => Threw e (fun w => snd (p w))
      end
  | Threw e o => Threw e o
  end.

(** [p.catch(h)]; bluebird's one-argument [catch] is
    [then(undefined, h)], so an [h] that is undefined lets the
    rejection through unchanged. *)
Definition catch {A} (c : started A) (h : option (error -> M A)) : started A :=
  match c with
  | Started p =>
      match h with
      | Some f =>
          Started (fun w => match p w with
                            | (Ok a, w') => (Ok a, w')
                            | (Err e, w') => f e w'
                            end)
      | None => Started p
      end
  | Threw e o => Threw e o
  end.

(** Calling a method and letting the event loop run. *)
Definition call {A} (c : Chain A) (w : World access) : outcome A * World access :=
  match c w with
  | Started p =>
      match p w with
      | (Ok a, w') => (Resolved a, w')
      | (Err e, w') => (Rejected e, w')
      end
  | Threw e o => (Thrown e, o w)
  end.

Notation "c '>>then' f" := (then_ c f) (at level 65, left associativity).
Notation "c '>>spread' h" := (spread c h) (at level 65, left associativity).
Notation "c '>>catch' h" := (catch c h) (at level 65, left associativity).

(** [client.postAsync(options)]: the request goes on the wire and the
    promise settles with the answer. *)
Definition postAsync (client : access) (options : Request.t)
    : M (value * value) :=
  fun w => (access_post ext (wire w) client options,
            {| that := that w; wire := wire w ++ [(client, options)] |}).

(** [that.api.validateResponse()] *)
Definition that_api_validateResponse (w : World access)
    : result (value -> value -> M (value * value)) :=
  match api (that w) with
  | EmptyObject => Err TypeError
  | Access a => Ok (fun res body => lift (access_validateResponse ext a res body))
  end.

(** [that.api.handleNetworkError], a property read. *)
Definition that_api_handleNetworkError (w : World access)
    : option (error -> M value) :=
  match api (that w) with
  | EmptyObject => None
  | Access a => Some (fun e => lift (access_handleNetworkError ext a e))
  end.

(** The members of a Prism instance: the fields the constructor sets
    and the methods on the prototype. *)
Definition Prism_members : list string :=
  [ "opts"; "api"; "authenticated"; "connected"; "session";
    "isConnected"; "isAuthenticated"; "setSession"; "connect"; "login";
    "prepare"; "logout"; "contentDetail"; "contentUpload";
    "contentRetrieve"; "contentPurchase"; "contentPurchaseRemove";
    "urlPurchase"; "urlStatic"; "jobCreate"; "jobDetail"; "jobUpdate";
    "jobStart"; "jobAbort"; "jobRetry"; "jobRemove"; "jobContentExists";
    "jobContentUrl" ].

(** [that.handleNetworkError], a property read on the instance itself:
    it has no such member, so the read gives undefined. *)
Definition that_handleNetworkError : option (error -> M value) := None.

(** ** The methods of Prism.js *)

(** [new Prism(opts)] *)
Definition Prism_new (o : Load.t) : Prism access :=
  {| opts :=
       {| Opts.username := or_default (Load.username o) (VStr EmptyString);
          Opts.password := or_default (Load.password o) (VStr EmptyString);
          Opts.domain := or_default (Load.domain o) (VStr "cdn.oose.io");
          Opts.prism :=
            {| PrismOpts.host := or_default (Load.prism_host o) VNull;
               PrismOpts.port := or_default (Load.prism_port o) (VNum 5971) |} |};
     api := EmptyObject;
     authenticated := false;
     connected := false;
     session := VObj [] |}.

Definition isConnected (this : Prism access) : bool := connected this.

Definition isAuthenticated (this : Prism access) : bool := authenticated this.

Definition setSession (sessionToken : value) : M unit :=
  modify (set_session (VObj [("token", sessionToken)])) ;;
  modify (set_authenticated true).

Definition connect (host port : value) : Chain value := fun _ =>
  Started (
    if truthy host then
      modify (set_prism_host host) ;;
      (if truthy port then modify (set_prism_port port) else ret tt) ;;
      modify (set_connected true) ;;
      o <- gets (fun that => Opts.prism (opts that)) ;;
      a <- lift (api_setupAccess ext "prism" o) ;;
      modify (set_api (Access a)) ;;
      h <- gets (fun that => PrismOpts.host (Opts.prism (opts that))) ;;
      ret (js_or host h)
    else
      h0 <- gets (fun that => PrismOpts.host (Opts.prism (opts that))) ;;
      d <- gets (fun that => Opts.domain (opts that)) ;;
      (if negb (truthy h0) then modify (set_prism_host d) else ret tt) ;;
      p0 <- gets (fun that => PrismOpts.port (Opts.prism (opts that))) ;;
      (if negb (truthy p0)
       then modify (set_prism_port (js_or port (VNum 5971))) else ret tt) ;;
      modify (set_connected true) ;;
      o <- gets (fun that => Opts.prism (opts that)) ;;
      a <- lift (api_prism ext o) ;;
      modify (set_api (Access a)) ;;
      h <- gets (fun that => PrismOpts.host (Opts.prism (opts that))) ;;
      ret (js_or host h)).

Definition login (username password : value) : Chain value := fun w =>
  match api (that w) with
  | EmptyObject => Threw TypeError (fun w' => w')
  | Access a =>
      Started (postAsync a
        {| Request.url := access_url ext a "/user/login";
           Request.json :=
             VObj [("username", js_or username (Opts.username (opts (that w))));
                   ("password", js_or password (Opts.password (opts (that w))))];
           Request.formData := None |})
      >>spread that_api_validateResponse w
      >>spread Ok (fun res body =>
        s <- lift (get_prop body "session") ;;
        if negb (truthy s) then throw (UserError "Login failed, no session")
        else
          modify (set_session s) ;;
          modify (set_authenticated true) ;;
          gets (fun that => session that))
      >>catch that_api_handleNetworkError w
  end.

Definition prepare (request : option (api_object access)) (session' : value)
  : Chain access := fun w =>
  let request := match request with Some r => r | None => api (that w) end in
  let session' := if negb (truthy session') then session (that w) else session' in
  match api_setSession ext session' request "X-OOSE-Token" with
  | Err e => Threw e (fun w' => w')
  | Ok client =>
      if negb (isConnected (that w)) then
        Threw (UserError "Not connected") (fun w' => w')
      else if negb (isAuthenticated (that w)) then
        Threw (UserError "Not authenticated") (fun w' => w')
      else Started (ret client)
  end.

Definition logout : Chain value := fun w =>
  prepare None VUndefined w
  >>then (fun client =>
    postAsync client
      {| Request.url := access_url ext client "/user/logout";
         Request.json := VBool true;
         Request.formData := None |})
  >>spread that_api_validateResponse w
  >>spread Ok (fun res body =>
    modify (set_authenticated false) ;;
    ret body)
  >>catch that_handleNetworkError.

Definition contentDetail (hash : value) : Chain value := fun w =>
  prepare None VUndefined w
  >>then (fun client =>
    postAsync client
      {| Request.url := access_url ext client "/content/detail";
         Request.json := VObj [("hash", hash)];
         Request.formData := None |})
  >>spread that_api_validateResponse w
  >>spread Ok (fun res body => ret body)
  >>catch that_handleNetworkError.

Definition contentUpload (filepath : value) : Chain value := fun w =>
  prepare None VUndefined w
  >>then (fun client =>
    resolved <- lift (path_resolve ext filepath) ;;
    file <- lift (fs_createReadStream ext resolved) ;;
    postAsync client
      {| Request.url := access_url ext client "/content/upload";
         Request.json := VBool true;
         Request.formData := Some (VObj [("file", file)]) |})
  >>spread that_api_validateResponse w
  >>spread Ok (fun res body => ret body)
  >>catch that_handleNetworkError.

Definition contentRetrieve (request fileExtension : value) : Chain value := fun w =>
  match
    (if negb (truthy fileExtension) then
       match get_prop request "url" with
       | Ok u =>
           match path_extname ext u with
           | Ok e => Ok (VStr (replace_dot e))
           | Err e => Err e
           end
       | Err e => Err e
       end
     else Ok fileExtension)
  with
  | Err e => Threw e (fun w' => w')
  | Ok fileExtension =>
      prepare None VUndefined w
      >>then (fun client =>
        postAsync client
          {| Request.url := access_url ext client "/content/retrieve";
             Request.json :=
               VObj [("request", request); ("extension", fileExtension)];
             Request.formData := None |})
      >>spread that_api_validateResponse w
      >>spread Ok (fun res body => ret body)
      >>catch that_handleNetworkError
  end.

Definition contentPurchase (hash ext' referrer life : value) : Chain value :=
  fun w =>
  prepare None VUndefined w
  >>then (fun client =>
    postAsync client
      {| Request.url := access_url ext client "/content/purchase";
         Request.json :=
           VObj [("hash", hash); ("ext", ext'); ("referrer", referrer);
                 ("life", life)];
         Request.formData := None |})
  >>spread that_api_validateResponse w
  >>spread Ok (fun res body => ret body)
  >>catch that_handleNetworkError.

Definition contentPurchaseRemove (token : value) : Chain value := fun w =>
  prepare None VUndefined w
  >>then (fun client =>
    postAsync client
      {| Request.url := access_url ext client "/content/purchase/remove";
         Request.json := VObj [("token", token)];
         Request.formData := None |})
  >>spread that_api_validateResponse w
  >>spread Ok (fun res body => ret body)
  >>catch that_handleNetworkError.

Definition urlPurchase (purchase name : value) : M value :=
  let name := js_or name "video" in
  domain <- gets (fun that => Opts.domain (opts that)) ;;
  token <- lift (get_prop purchase "token") ;;
  ext' <- lift (get_prop purchase "ext") ;;
  ret (VStr ("//" +++ domain +++ "/" +++ token +++ "/" +++ name +++ "." +++ ext')).

Definition urlStatic (hash ext' name : value) : M value :=
  let name := js_or name "file" in
  let ext' := js_or ext' "bin" in
  domain <- gets (fun that => Opts.domain (opts that)) ;;
  ret (VStr ("//" +++ domain +++ "/static/" +++ hash +++ "/" +++ name +++ "." +++ ext')).

Definition jobCreate (description priority category : value) : Chain value :=
  fun w =>
  prepare None VUndefined w
  >>then (fun client =>
    postAsync client
      {| Request.url := access_url ext client "/job/create";
         Request.json :=
           VObj [("description", JSON_stringify description);
                 ("priority", js_or priority VNull);
                 ("category", js_or category "resource")];
         Request.formData := None |})
  >>spread that_api_validateResponse w
  >>spread Ok (fun res body => ret body)
  >>catch that_handleNetworkError.

Definition jobDetail (handle : value) : Chain value := fun w =>
  prepare None VUndefined w
  >>then (fun client =>
    postAsync client
      {| Request.url := access_url ext client "/job/detail";
         Request.json := VObj [("handle", handle)];
         Request.formData := None |})
  >>spread Ok (fun res body => ret body)
  >>catch that_handleNetworkError.

Definition jobUpdate (handle changes : value) : Chain value := fun w =>
  prepare None VUndefined w
  >>then (fun client =>
    postAsync client
      {| Request.url := access_url ext client "/job/update";
         Request.json := changes;
         Request.formData := None |})
  >>spread that_api_validateResponse w
  >>spread Ok (fun res body => ret body)
  >>catch that_handleNetworkError.

Definition jobStart (handle : value) : Chain value := fun w =>
  prepare None VUndefined w
  >>then (fun client =>
    postAsync client
      {| Request.url := access_url ext client "/job/start";
         Request.json := VObj [("handle", handle)];
         Request.formData := None |})
  >>spread that_api_validateResponse w
  >>spread Ok (fun res body => ret body)
  >>catch that_handleNetworkError.

Definition jobAbort (handle : value) : Chain value := fun w =>
  prepare None VUndefined w
  >>then (fun client =>
    postAsync client
      {| Request.url := access_url ext client "/job/abort";
         Request.json := VObj [("handle", handle)];
         Request.formData := None |})
  >>spread that_api_validateResponse w
  >>spread Ok (fun res body => ret body)
  >>catch that_handleNetworkError.

Definition jobRetry (handle : value) : Chain value := fun w =>
  prepare None VUndefined w
  >>then (fun client =>
    postAsync client
      {| Request.url := access_url ext client "/job/retry";
         Request.json := VObj [("handle", handle)];
         Request.formData := None |})
  >>spread that_api_validateResponse w
  >>spread Ok (fun res body => ret body)
  >>catch that_handleNetworkError.

Definition jobRemove (handle : value) : Chain value := fun w =>
  prepare None VUndefined w
  >>then (fun client =>
    postAsync client
      {| Request.url := access_url ext client "/job/remove";
         Request.json := VObj [("handle", handle)];
         Request.formData := None |})
  >>spread that_api_validateResponse w
  >>spread Ok (fun res body => ret body)
  >>catch that_handleNetworkError.

Definition jobContentExists (handle file : value) : Chain value := fun w =>
  prepare None VUndefined w
  >>then (fun client =>
    postAsync client
      {| Request.url := access_url ext client "/job/content/exists";
         Request.json := VObj [("handle", handle); ("file", file)];
         Request.formData := None |})
  >>spread that_api_validateResponse w
  >>spread Ok (fun res body =>
    e <- lift (get_prop body "exists") ;;
    ret (VBool (truthy e)))
  >>catch that_handleNetworkError.

Definition jobContentUrl (handle file : value) : M value :=
  host <- gets (fun that => PrismOpts.host (Opts.prism (opts that))) ;;
  port <- gets (fun that => PrismOpts.port (Opts.prism (opts that))) ;;
  ret (VStr ("https://" +++ host +++ ":" +++ port +++
             "/job/content/download/" +++ handle +++ "/" +++ file)).

(** ** Vocabulary of the statements *)

(** The world after one more request went out. *)
Definition sent (w : World access) (client : access) (r : Request.t)
  : World access :=
  {| that := that w; wire := wire w ++ [(client, r)] |}.

(** The client passes the guards of [prepare()] and the API helper binds
    its session to the request client [client]. *)
Definition prepared (w : World access) (client : access) : Prop :=
  connected (that w) = true /\
  authenticated (that w) = true /\
  api_setSession ext (session (that w)) (api (that w)) "X-OOSE-Token" = Ok client.

(** The request [login] posts. *)
Definition login_request (username password : value) (w : World access)
    (a : access) : Request.t :=
  {| Request.url := access_url ext a "/user/login";
     Request.json :=
       VObj [("username",
              if truthy username then username
              else Opts.username (opts (that w)));
             ("password",
              if truthy password then password
              else Opts.password (opts (that w)))];
     Request.formData := None |}.

(** What a promise ends as when its last handler returned [r]. *)
Definition settled {A} (r : result A) : outcome A :=
  match r with
  | Ok a => Resolved a
  | Err e => Rejected e
  end.

(** The operations that go through [prepare()] and one POST. *)
Inductive operation : Type :=
| Logout
| ContentDetail (hash : value)
| ContentUpload (filepath : value)
| ContentRetrieve (request fileExtension : value)
| ContentPurchase (hash ext' referrer life : value)
| ContentPurchaseRemove (token : value)
| JobCreate (description priority category : value)
| JobDetail (handle : value)
| JobUpdate (handle changes : value)
| JobStart (handle : value)
| JobAbort (handle : value)
| JobRetry (handle : value)
| JobRemove (handle : value)
| JobContentExists (handle file : value).

Definition perform (op : operation) : Chain value :=
  match op with
  | Logout => logout
  | ContentDetail hash => contentDetail hash
  | ContentUpload filepath => contentUpload filepath
  | ContentRetrieve request fileExtension => contentRetrieve request fileExtension
  | ContentPurchase hash ext' referrer life =>
      contentPurchase hash ext' referrer life
  | ContentPurchaseRemove token => contentPurchaseRemove token
  | JobCreate description priority category =>
      jobCreate description priority category
  | JobDetail handle => jobDetail handle
  | JobUpdate handle changes => jobUpdate handle changes
  | JobStart handle => jobStart handle
  | JobAbort handle => jobAbort handle
  | JobRetry handle => jobRetry handle
  | JobRemove handle => jobRemove handle
  | JobContentExists handle file => jobContentExists handle file
  end.

(** What an operation computes locally before it posts does not fail:
    the upload finds its file, the retrieval has or finds its
    extension. *)
Definition local_steps_ok (op : operation) : Prop :=
  match op with
  | ContentUpload filepath =>
      exists resolved file,
        path_resolve ext filepath = Ok resolved /\
        fs_createReadStream ext resolved = Ok file
  | ContentRetrieve request fileExtension =>
      truthy fileExtension = true \/
      exists u e, get_prop request "url" = Ok u /\ path_extname ext u = Ok e
  | _ => True
  end.

Definition is_jobDetail (op : operation) : bool :=
  match op with
  | JobDetail _ => true
  | _ => false
  end.

(** The request [jobCreate] posts. *)
Definition jobCreate_request (description priority category : value)
    (client : access) : Request.t :=
  {| Request.url := access_url ext client "/job/create";
     Request.json :=
       VObj [("description", JSON_stringify description);
             ("priority", if truthy priority then priority else VNull);
             ("category", if truthy category then category else VStr "resource")];
     Request.formData := None |}.

End Client.

(** The same collaborators with another network-error handler. *)
Definition with_handleNetworkError {access : Type} (ext : External access)
    (h : access -> error -> result value) : External access :=
  {| api_setupAccess := api_setupAccess ext;
     api_prism := api_prism ext;
     api_setSession := api_setSession ext;
     access_url := access_url ext;
     access_post := access_post ext;
     access_validateResponse := access_validateResponse ext;
     access_handleNetworkError := h;
     path_resolve := path_resolve ext;
     path_extname := path_extname ext;
     fs_createReadStream := fs_createReadStream ext |}.

(** The same collaborators with another response validation. *)
Definition with_validateResponse {access : Type} (ext : External access)
    (v : access -> value -> value -> result (value * value)) : External access :=
  {| api_setupAccess := api_setupAccess ext;
     api_prism := api_prism ext;
     api_setSession := api_setSession ext;
     access_url := access_url ext;
     access_post := access_post ext;
     access_validateResponse := v;
     access_handleNetworkError := access_handleNetworkError ext;
     path_resolve := path_resolve ext;
     path_extname := path_extname ext;
     fs_createReadStream := fs_createReadStream ext |}.


Arguments Started {access A} p.
Arguments Threw {access A} e orphan.

(** What [contentRetrieve] computes before it calls [prepare()] does
    not throw: it has its extension, or finds one on the URL. *)
Definition sync_steps_ok {access : Type} (ext : External access)
    (op : operation) : Prop :=
  match op with
  | ContentRetrieve request fileExtension =>
      truthy fileExtension = true \/
      exists u e, get_prop request "url" = Ok u /\ path_extname ext u = Ok e
  | _ => True
  end.

(** The operations whose last step is [return body]. *)
Definition returns_body (op : operation) : bool :=
  match op with
  | JobDetail _ | JobContentExists _ _ | Logout => false
  | _ => true
  end.

Definition is_logout (op : operation) : bool :=
  match op with
  | Logout => true
  | _ => false
  end.

(** The requests [logout], [contentUpload] and [contentRetrieve] post. *)
Definition logout_request {access : Type} (ext : External access)
    (client : access) : Request.t :=
  {| Request.url := access_url ext client "/user/logout";
     Request.json := VBool true;
     Request.formData := None |}.

Definition contentUpload_request {access : Type} (ext : External access)
    (file : value) (client : access) : Request.t :=
  {| Request.url := access_url ext client "/content/upload";
     Request.json := VBool true;
     Request.formData := Some (VObj [("file", file)]) |}.

Definition contentRetrieve_request {access : Type} (ext : External access)
    (request extension : value) (client : access) : Request.t :=
  {| Request.url := access_url ext client "/content/retrieve";
     Request.json := VObj [("request", request); ("extension", extension)];
     Request.formData := None |}.

(** The prism options [connect(host, port)] leaves in the client. *)
Definition connect_selection {access : Type} (host port : value)
    (this : Prism access) : PrismOpts.t :=
  let o := Opts.prism (opts this) in
  if truthy host then
    {| PrismOpts.host := host;
       PrismOpts.port := if truthy port then port else PrismOpts.port o |}
  else
    {| PrismOpts.host :=
         if truthy (PrismOpts.host o) then PrismOpts.host o
         else Opts.domain (opts this);
       PrismOpts.port :=
         if truthy (PrismOpts.port o) then PrismOpts.port o
         else if truthy port then port else VNum 5971 |}.

(** The request client [connect(host, port)] asks the API helper for. *)
Definition connect_access {access : Type} (ext : External access)
    (host port : value) (this : Prism access) : result access :=
  if truthy host
  then api_setupAccess ext "prism" (connect_selection host port this)
  else api_prism ext (connect_selection host port this).

(** The same collaborators when the request client cannot be set up. *)
Definition without_setup {access : Type} (ext : External access) (e : error)
    : External access :=
  {| api_setupAccess := fun _ _ => Err e;
     api_prism := fun _ => Err e;
     api_setSession := api_setSession ext;
     access_url := access_url ext;
     access_post := access_post ext;
     access_validateResponse := access_validateResponse ext;
     access_handleNetworkError := access_handleNetworkError ext;
     path_resolve := path_resolve ext;
     path_extname := path_extname ext;
     fs_createReadStream := fs_createReadStream ext |}.

(** The same collaborators when the file to upload cannot be opened. *)
Definition without_file {access : Type} (ext : External access) (e : error)
    : External access :=
  {| api_setupAccess := api_setupAccess ext;
     api_prism := api_prism ext;
     api_setSession := api_setSession ext;
     access_url := access_url ext;
     access_post := access_post ext;
     access_validateResponse := access_validateResponse ext;
     access_handleNetworkError := access_handleNetworkError ext;
     path_resolve := path_resolve ext;
     path_extname := path_extname ext;
     fs_createReadStream := fun _ => Err e |}.

(** ** A reference instance of the collaborators *)

Module Demo.

(** Modelled from the spec: helpers/api.js is not among the sources.  A
    request client is the prism options it was set up with and the
    headers it sends; [url] is the https URL of a path on that host and
    port; [api.setSession] adds the session token under the given header
    name and needs a request client to start from. *)
Record client : Type :=
  { options : PrismOpts.t;
    headers : list (string * value) }.

Definition makeURL (c : client) (uri : string) : value :=
  VStr ("https://" +++ PrismOpts.host (options c) +++ ":" +++
        PrismOpts.port (options c) +++ uri).

Definition setupRequest (type : string) (o : PrismOpts.t) : result client :=
  Ok {| options := o; headers := [] |}.

Definition withSession (session : value) (request : api_object client)
    (tokenName : string) : result client :=
  match request with
  | EmptyObject => Err TypeError
  | Access c =>
      match get_prop session "token" with
      | Ok t => Ok {| options := options c;
                      headers := headers c ++ [(tokenName, t)] |}
      | Err e => Err e
      end
  end.

(** Modelled from the spec: the shared response validation accepts a
    200 answer whose body carries no error, and fails with a user error
    otherwise. *)
Definition validateResponse (c : client) (res body : value)
    : result (value * value) :=
  match get_prop res "statusCode" with
  | Ok (VNum 200) =>
      match get_prop body "error" with
      | Ok e => if truthy e then Err (UserError (to_string e)) else Ok (res, body)
      | Err e => Err e
      end
  | Ok _ => Err (UserError "Invalid response code")
  | Err e => Err e
  end.

(** Modelled from the spec: the shared network-error handler re-throws
    a normalized error; a user error stays one. *)
Definition handleNetworkError (c : client) (e : error) : result value :=
  match e with
  | UserError m => Err (UserError m)
  | TypeError => Err (Raised (VObj [("name", VStr "Error")]))
  | Raised v =>
      Err (Raised (VObj [("name", VStr "NetworkError");
                         ("message", VStr (to_string v))]))
  end.

(** The part of a file name from its last dot on. *)
Fixpoint extname (s : string) : string :=
  match s with
  | EmptyString => EmptyString
  | String c rest =>
      match extname rest with
      | EmptyString => if Ascii.eqb c "."%char then s else EmptyString
      | e => e
      end
  end.

(** The collaborators, over a remote side that answers each request by
    [server]. *)
Definition ext (server : Request.t -> result (value * value)) : External client :=
  {| api_setupAccess := setupRequest;
     api_prism := setupRequest "prism";
     api_setSession := withSession;
     access_url := makeURL;
     access_post := fun _ _ r => server r;
     access_validateResponse := validateResponse;
     access_handleNetworkError := handleNetworkError;
     path_resolve := fun p => Ok p;
     path_extname := fun p =>
       match p with VStr s => Ok (extname s) | _ => Err TypeError end;
     fs_createReadStream := fun p => Ok (VObj [("path", p)]) |}.

Definition ok_response : value := VObj [("statusCode", VNum 200)].

(** A remote side that answers every request with the given body. *)
Definition answers (body : value) : Request.t -> result (value * value) :=
  fun _ => Ok (ok_response, body).

(** A remote side that cannot be reached. *)
Definition unreachable : Request.t -> result (value * value) :=
  fun _ => Err (Raised (VStr "connect ECONNREFUSED")).

(** A remote side that answers with a server error. *)
Definition failing : Request.t -> result (value * value) :=
  fun _ => Ok (VObj [("statusCode", VNum 500)],
               VObj [("error", VStr "Internal error")]).

(** The request client [connect('example.com')] sets up, and the one
    [prepare()] binds to the session token [tok]. *)
Definition example_com : PrismOpts.t :=
  {| PrismOpts.host := VStr "example.com"; PrismOpts.port := VNum 5971 |}.

Definition plain_client : client :=
  {| options := example_com; headers := [] |}.

Definition token_client : client :=
  {| options := example_com; headers := [("X-OOSE-Token", VStr "tok")] |}.

(** A client right after [new Prism()]. *)
Definition fresh : World client :=
  {| that := Prism_new client Load.none; wire := [] |}.

(** The same client after [connect('example.com')] and
    [setSession('tok')]. *)
Definition ready (server : Request.t -> result (value * value)) : World client :=
  snd (setSession "tok"
         (snd (call (connect (ext server) "example.com" VUndefined) fresh))).

(** A client constructed with a prism host and port of its own. *)
Definition configured : World client :=
  {| that :=
       Prism_new client
         {| Load.username := None; Load.password := None; Load.domain := None;
            Load.prism_host := Some (VStr "prism.example.com");
            Load.prism_port := Some (VNum 8080) |};
     wire := [] |}.

End Demo.


(** ** Properties *)

Lemma append_assoc (a b c : string) : ((a ++ b) ++ c = a ++ (b ++ c))%string.
Proof.
  induction a as [|x a IH]; simpl.
  - reflexivity.
  - now rewrite IH.
Qed.

Lemma handleNetworkError_not_a_member :
  existsb (String.eqb "handleNetworkError") Prism_members = false.
Proof. reflexivity. Qed.

(** Break a goal into its conjuncts, introducing what they assume. *)
Ltac split_all :=
  repeat match goal with
         | |- _ /\ _ => split
         | |- forall _, _ => intro
         end.

Section Properties.

Variable access : Type.
Variable ext : External access.

Lemma prepare_prepared (w : World access) (client : access) :
  prepared ext w client -> prepare ext None VUndefined w = Started (ret client).
Proof.
  intros (Hc & Ha & Hs). unfold prepare, isConnected, isAuthenticated.
  simpl. rewrite Hs, Hc, Ha. reflexivity.
Qed.

(** *** prepare *)

(** C4. [prepare] throws, leaving the world (and so the wire) as it was,
    whenever the client is not connected or not authenticated: the
    error is the API helper's own when binding the session fails, else
    the [UserError] of the first guard that fails.  When the client is
    connected and authenticated, [prepare] resolves to the request
    client that [api.setSession] made from the session, the request
    client and the header name X-OOSE-Token. *)
Theorem prepare_guard
    (request : option (api_object access)) (session' : value)
    (w : World access) :
  let request' := match request with Some r => r | None => api (that w) end in
  let session'' := if truthy session' then session' else session (that w) in
  (connected (that w) && authenticated (that w) = false ->
   exists e,
     call (prepare ext request session') w = (Thrown e, w) /\
     forall client,
       api_setSession ext session'' request' "X-OOSE-Token" = Ok client ->
       e = UserError (if connected (that w) then "Not authenticated"
                      else "Not connected")) /\
  (connected (that w) && authenticated (that w) = true ->
   forall client,
     api_setSession ext session'' request' "X-OOSE-Token" = Ok client ->
     call (prepare ext request session') w = (Resolved client, w)).
Proof.
  cbv zeta. unfold call, prepare, isConnected, isAuthenticated.
  destruct (truthy session'); simpl;
    (destruct (api_setSession ext _ _ _) as [cl|e0]; split; intros H;
     [ destruct (connected (that w)); destruct (authenticated (that w));
       try discriminate H; simpl;
       (eexists; split; [reflexivity|]; intros c Hc; inversion Hc; reflexivity)
     | intros c Hc; inversion Hc; subst;
       apply andb_prop in H; destruct H as [-> ->]; reflexivity
     | eexists; split; [reflexivity|]; intros c Hc; discriminate Hc
     | intros c Hc; discriminate Hc ]).
Qed.

(** A client that was only constructed fails [prepare]. *)
Lemma prepare_before_connect
    (o : Load.t) (request : option (api_object access)) (session' : value) :
  let w := {| that := Prism_new access o; wire := [] |} in
  exists e, call (prepare ext request session') w = (Thrown e, w).
Proof.
  intros w. unfold call, prepare, isConnected, isAuthenticated.
  destruct (api_setSession ext _ _ _) as [client|e0].
  - exists (UserError "Not connected"). reflexivity.
  - exists e0. reflexivity.
Qed.

(** *** setSession *)

(** C6. After [setSession(token)], whatever the state of the client
    was, [isAuthenticated()] is true and the session is [{token}];
    nothing is sent and the connected flag is untouched. *)
Theorem setSession_authenticates (token : value) (w : World access) :
  fst (setSession token w) = Ok tt /\
  isAuthenticated (that (snd (setSession token w))) = true /\
  session (that (snd (setSession token w))) = VObj [("token", token)] /\
  wire (snd (setSession token w)) = wire w /\
  isConnected (that (snd (setSession token w))) = isConnected (that w).
Proof. repeat split. Qed.

(** *** URL builders *)

(** C8. [urlPurchase] and [urlStatic] only build a string from the
    configured domain and their arguments and leave the world alone:
    [//domain/token/name.ext] with name [video] unless given, and
    [//domain/static/hash/name.ext] with name [file] and ext [bin]
    unless given; with the default domain,
    [urlPurchase({token:'t',ext:'mp4'})] is [//cdn.oose.io/t/video.mp4].
    The parts are plain data (strings, or numbers within the safe
    integers, and the like), written as the runtime writes them. *)
Theorem url_builders (w : World access) :
  plain (Opts.domain (opts (that w))) = true ->
  (forall fields name t e,
     assoc "token" fields = Some t ->
     assoc "ext" fields = Some e ->
     plain t = true ->
     plain e = true ->
     plain name = true ->
     urlPurchase (VObj fields) name w =
       (Ok (VStr ("//" ++ to_string (Opts.domain (opts (that w))) ++ "/" ++
                  to_string t ++ "/" ++
                  to_string (if truthy name then name else VStr "video") ++
                  "." ++ to_string e)), w)) /\
  (forall hash ext' name,
     plain hash = true ->
     plain ext' = true ->
     plain name = true ->
     urlStatic hash ext' name w =
       (Ok (VStr ("//" ++ to_string (Opts.domain (opts (that w))) ++
                  "/static/" ++ to_string hash ++ "/" ++
                  to_string (if truthy name then name else VStr "file") ++
                  "." ++
                  to_string (if truthy ext' then ext' else VStr "bin"))), w)) /\
  (Opts.domain (opts (that w)) = VStr "cdn.oose.io" ->
   urlPurchase (VObj [("token", VStr "t"); ("ext", VStr "mp4")]) VUndefined w =
     (Ok (VStr "//cdn.oose.io/t/video.mp4"), w) /\
   urlPurchase (VObj [("token", VStr "t"); ("ext", VStr "mp4")]) (VStr "x") w =
     (Ok (VStr "//cdn.oose.io/t/x.mp4"), w) /\
   urlStatic (VStr "abc123") VUndefined VUndefined w =
     (Ok (VStr "//cdn.oose.io/static/abc123/file.bin"), w) /\
   urlStatic (VStr "abc123") (VStr "jpg") (VStr "img") w =
     (Ok (VStr "//cdn.oose.io/static/abc123/img.jpg"), w)).
Proof.
  intros Pd. split; [|split].
  - intros fields name t e Ht He Pt Pe Pn.
    unfold urlPurchase, bind, gets, lift, ret, get_prop, js_or, plus.
    rewrite Ht, He. f_equal. f_equal. f_equal.
    now rewrite !append_assoc.
  - intros hash ext' name Ph Pe Pn.
    unfold urlStatic, bind, gets, ret, js_or, plus.
    f_equal. f_equal. f_equal.
    now rewrite !append_assoc.
  - intros Hd.
    unfold urlPurchase, urlStatic, bind, gets, lift, ret, get_prop, js_or, plus.
    rewrite Hd. simpl. repeat split.
Qed.

(** C9. [jobContentUrl(handle, file)] is
    [https://host:port/job/content/download/handle/file] for the prism
    host and port of the client's options, and leaves the world alone;
    for host [example.com] and port [5971],
    [jobContentUrl('h1','f.txt')] is
    [https://example.com:5971/job/content/download/h1/f.txt].  Host,
    port, handle and file are plain data (strings, or numbers within
    the safe integers, and the like), written as the runtime writes
    them. *)
Theorem jobContentUrl_builds (w : World access) :
  plain (PrismOpts.host (Opts.prism (opts (that w)))) = true ->
  plain (PrismOpts.port (Opts.prism (opts (that w)))) = true ->
  (forall handle file,
     plain handle = true ->
     plain file = true ->
     jobContentUrl handle file w =
       (Ok (VStr ("https://" ++
                  to_string (PrismOpts.host (Opts.prism (opts (that w)))) ++
                  ":" ++
                  to_string (PrismOpts.port (Opts.prism (opts (that w)))) ++
                  "/job/content/download/" ++ to_string handle ++ "/" ++
                  to_string file)), w)) /\
  (Opts.prism (opts (that w)) =
     {| PrismOpts.host := VStr "example.com"; PrismOpts.port := VNum 5971 |} ->
   jobContentUrl (VStr "h1") (VStr "f.txt") w =
     (Ok (VStr "https://example.com:5971/job/content/download/h1/f.txt"), w)).
Proof.
  intros Ph Pp. split.
  - intros handle file Pa Pf.
    unfold jobContentUrl, bind, gets, ret, plus.
    f_equal. f_equal. f_equal.
    now rewrite !append_assoc.
  - intros Hp.
    unfold jobContentUrl, bind, gets, ret, plus.
    rewrite Hp. reflexivity.
Qed.

(** *** connect *)

(** C5 (as the code has it). [connect(host, port)] always sets the
    connected flag and sends nothing.  A host that is given replaces the
    prism host (and a port that is given the prism port), and the
    promise resolves to that host.  Without a host the configured prism
    host and port are kept where they are set; the domain becomes the
    host only when no prism host is configured, and the port argument,
    or else 5971, the port only when no prism port is configured; the
    promise resolves to the resulting prism host.  The promise resolves
    once the API helper has made the request client, which becomes
    [this.api]. *)
Theorem connect_selects_host (host port : value) (w : World access) :
  let o := Opts.prism (opts (that w)) in
  let r := fst (call (connect ext host port) w) in
  let w' := snd (call (connect ext host port) w) in
  let o' := Opts.prism (opts (that w')) in
  connected (that w') = true /\
  wire w' = wire w /\
  (truthy host = true ->
   PrismOpts.host o' = host /\
   PrismOpts.port o' = (if truthy port then port else PrismOpts.port o) /\
   forall a, api_setupAccess ext "prism" o' = Ok a ->
             r = Resolved host /\ api (that w') = Access a) /\
  (truthy host = false ->
   PrismOpts.host o' =
     (if truthy (PrismOpts.host o) then PrismOpts.host o
      else Opts.domain (opts (that w))) /\
   PrismOpts.port o' =
     (if truthy (PrismOpts.port o) then PrismOpts.port o
      else if truthy port then port else VNum 5971) /\
   forall a, api_prism ext o' = Ok a ->
             r = Resolved (PrismOpts.host o') /\ api (that w') = Access a).
Proof.
  cbv zeta. unfold call, connect, js_or.
  destruct (truthy host) eqn:Hh.
  - unfold bind, modify, gets, lift, ret; simpl.
    destruct (truthy port) eqn:Hp; simpl;
      (destruct (api_setupAccess ext "prism" _) as [a0|e0] eqn:Hs; simpl;
       split_all; simpl in *; rewrite ?Hh; congruence).
  - unfold bind, modify, gets, lift, ret; simpl.
    destruct (truthy (PrismOpts.host (Opts.prism (opts (that w))))) eqn:H0;
      simpl;
      (destruct (truthy (PrismOpts.port (Opts.prism (opts (that w))))) eqn:P0;
       simpl;
       (destruct (api_prism ext _) as [a0|e0] eqn:Hs; simpl;
        split_all; simpl in *; congruence)).
Qed.

(** On a client constructed without prism options, [connect()] falls
    back to the domain and keeps the default port 5971. *)
Lemma connect_default_fallback (o : Load.t) (a : access) :
  Load.prism_host o = None ->
  Load.prism_port o = None ->
  let w := {| that := Prism_new access o; wire := [] |} in
  let d := or_default (Load.domain o) (VStr "cdn.oose.io") in
  api_prism ext {| PrismOpts.host := d; PrismOpts.port := VNum 5971 |} = Ok a ->
  fst (call (connect ext VUndefined VUndefined) w) = Resolved d /\
  Opts.prism (opts (that (snd (call (connect ext VUndefined VUndefined) w)))) =
    {| PrismOpts.host := d; PrismOpts.port := VNum 5971 |}.
Proof.
  intros Hh Hp w d Ha.
  unfold call, connect, js_or, w, Prism_new.
  rewrite Hh, Hp.
  unfold bind, modify, gets, lift, ret; simpl.
  fold d. rewrite Ha. simpl. split; reflexivity.
Qed.

(** *** login *)

(** C3 (as the code has it). When the validated body of the login
    answer has no (truthy) session, [login] throws
    [UserError('Login failed, no session')] inside its chain; that
    error goes through the API helper's network-error handler like any
    other, and the promise ends as the handler decides: rejected with
    the user error itself when the handler re-throws it.  The client is
    not touched: authenticated flag and session are what they were, so
    a client that was not authenticated still is not. *)
Theorem login_without_session
    (username password : value) (w : World access) (a : access)
    (res body res' body' s : value) :
  api (that w) = Access a ->
  access_post ext (wire w) a (login_request ext username password w a) =
    Ok (res, body) ->
  access_validateResponse ext a res body = Ok (res', body') ->
  get_prop body' "session" = Ok s ->
  truthy s = false ->
  let r := fst (call (login ext username password) w) in
  let w' := snd (call (login ext username password) w) in
  r = settled (access_handleNetworkError ext a
                 (UserError "Login failed, no session")) /\
  (access_handleNetworkError ext a (UserError "Login failed, no session") =
     Err (UserError "Login failed, no session") ->
   r = Rejected (UserError "Login failed, no session")) /\
  that w' = that w /\
  authenticated (that w') = authenticated (that w) /\
  session (that w') = session (that w) /\
  (authenticated (that w) = false -> authenticated (that w') = false).
Proof.
  intros Ha Hp Hv Hs Ht. cbv zeta.
  unfold login_request in Hp.
  unfold call, login, that_api_validateResponse, that_api_handleNetworkError.
  rewrite Ha. unfold spread, catch, bind, postAsync, lift, js_or.
  rewrite Hp. cbn [fst snd]. rewrite Hv. cbn [fst snd]. rewrite Hs.
  rewrite Ht. cbn [negb]. unfold throw.
  destruct (access_handleNetworkError ext a _) as [v|e] eqn:Hh; cbn;
    repeat split; try reflexivity; try (intros H; inversion H; reflexivity);
    try (intros H; exact H).
Qed.

(** X1. With a session in the validated body, [login] stores it, sets
    the authenticated flag and resolves to the session; one request
    went out and nothing else of the client changed. *)
Lemma login_with_session
    (username password : value) (w : World access) (a : access)
    (res body res' body' s : value) :
  api (that w) = Access a ->
  access_post ext (wire w) a (login_request ext username password w a) =
    Ok (res, body) ->
  access_validateResponse ext a res body = Ok (res', body') ->
  get_prop body' "session" = Ok s ->
  truthy s = true ->
  call (login ext username password) w =
    (Resolved s,
     {| that := set_authenticated true (set_session s (that w));
        wire := wire w ++ [(a, login_request ext username password w a)] |}).
Proof.
  intros Ha Hp Hv Hs Ht.
  unfold login_request in *.
  unfold call, login, that_api_validateResponse, that_api_handleNetworkError.
  rewrite Ha. unfold spread, catch, bind, postAsync, lift, js_or.
  rewrite Hp. cbn [fst snd]. rewrite Hv. cbn [fst snd]. rewrite Hs.
  rewrite Ht. reflexivity.
Qed.

(** A failure of the login POST reaches the caller as the API helper's
    network-error handler leaves it. *)
Lemma login_failure_normalized
    (username password : value) (w : World access) (a : access) (e : error) :
  api (that w) = Access a ->
  access_post ext (wire w) a (login_request ext username password w a) = Err e ->
  fst (call (login ext username password) w) =
    settled (access_handleNetworkError ext a e).
Proof.
  intros Ha Hp.
  unfold login_request in *.
  unfold call, login, that_api_validateResponse, that_api_handleNetworkError.
  rewrite Ha. unfold spread, catch, bind, postAsync, lift, js_or.
  rewrite Hp. cbn [fst snd].
  destruct (access_handleNetworkError ext a e); reflexivity.
Qed.

(** *** The operations *)

(** Unfold an operation of a prepared client down to its POST. *)
Ltac run_prepared Hprep :=
  unfold call, perform, logout, contentDetail, contentUpload, contentRetrieve,
    contentPurchase, contentPurchaseRemove, jobCreate, jobDetail, jobUpdate,
    jobStart, jobAbort, jobRetry, jobRemove, jobContentExists;
  rewrite ?(prepare_prepared Hprep);
  unfold that_api_validateResponse, that_handleNetworkError,
    then_, spread, catch, bind, postAsync, lift, ret, js_or.

(** Whatever way an operation goes, it sends nothing, or the one
    request it builds. *)
Lemma jobCreate_wire (description priority category : value) (w : World access) :
  let w' := snd (call (jobCreate ext description priority category) w) in
  wire w' = wire w \/
  exists client,
    wire w' =
      (wire w ++
         [(client, jobCreate_request ext description priority category client)])%list.
Proof.
  cbv zeta. unfold call, jobCreate, prepare, jobCreate_request, js_or.
  cbn [truthy negb].
  destruct (api_setSession ext _ _ _) as [cl|e0]; [|left; reflexivity].
  destruct (isConnected (that w)); [|left; reflexivity].
  destruct (isAuthenticated (that w)); [|left; reflexivity].
  right. exists cl.
  unfold that_api_validateResponse, that_handleNetworkError,
    then_, spread, catch, bind, postAsync, lift, ret.
  destruct (api (that w)) as [|a]; cbn.
  - reflexivity.
  - destruct (access_post ext _ _ _) as [[res body]|e]; cbn; [|reflexivity].
    destruct (access_validateResponse ext _ _ _) as [[res' body']|e]; reflexivity.
Qed.

(** C7. The request that [jobCreate] sends to [/job/create] carries,
    under [description], the JSON serialization of the description
    argument (a text, unless the description is undefined) and, under
    [category], the category argument or ['resource'] when it is left
    out; a prepared client does send that request.  The description is
    plain data (numbers within the safe integers, property names
    distinct), serialized as the runtime serializes it. *)
Theorem jobCreate_payload
    (description priority category : value) (w : World access) (client : access) :
  prepared ext w client ->
  plain description = true ->
  exists payload,
    wire (snd (call (jobCreate ext description priority category) w)) =
      (wire w ++
         [(client,
           {| Request.url := access_url ext client "/job/create";
              Request.json := payload;
              Request.formData := None |})])%list /\
    payload =
      VObj [("description", JSON_stringify description);
            ("priority", if truthy priority then priority else VNull);
            ("category",
             if truthy category then category else VStr "resource")] /\
    get_prop payload "description" =
      Ok (match stringify description with
          | Some text => VStr text
          | None => VUndefined
          end) /\
    (stringify description = None <-> description = VUndefined) /\
    (category = VUndefined -> get_prop payload "category" = Ok (VStr "resource")) /\
    (truthy category = true -> get_prop payload "category" = Ok category).
Proof.
  intros Hprep Hplain. eexists.
  split; [|split; [reflexivity|split; [reflexivity|split; [|split]]]].
  - run_prepared Hprep.
    destruct (api (that w)) as [|a]; cbn.
    + reflexivity.
    + destruct (access_post ext _ _ _) as [[res body]|e]; cbn; [|reflexivity].
      destruct (access_validateResponse ext _ _ _) as [[res' body']|e];
        reflexivity.
  - split.
    + destruct description as [| |[|]| | | |]; cbn; intros H;
        try discriminate H; reflexivity.
    + intros ->. reflexivity.
  - intros ->. reflexivity.
  - intros Ht. cbn. rewrite Ht. reflexivity.
Qed.

(** C10. [jobUpdate(handle, changes)] does not read its handle: the
    call goes the same way for any handle, and the request a prepared
    client sends to [/job/update] has the changes alone as its JSON
    body and no form data. *)
Theorem jobUpdate_body_is_changes
    (handle changes : value) (w : World access) (client : access) :
  prepared ext w client ->
  wire (snd (call (jobUpdate ext handle changes) w)) =
    (wire w ++ [(client,
                 {| Request.url := access_url ext client "/job/update";
                    Request.json := changes;
                    Request.formData := None |})])%list /\
  forall handle',
    call (jobUpdate ext handle' changes) w = call (jobUpdate ext handle changes) w.
Proof.
  intros Hprep. split; [|reflexivity].
  run_prepared Hprep.
  destruct (api (that w)) as [|a]; cbn.
  - reflexivity.
  - destruct (access_post ext _ _ _) as [[res body]|e]; cbn; [|reflexivity].
    destruct (access_validateResponse ext _ _ _) as [[res' body']|e];
      reflexivity.
Qed.

(** C1 (what the code does). In each of the fourteen operations the
    handler given to [catch] is [that.handleNetworkError], which a Prism
    instance does not have, so nothing is caught: when the POST of a
    prepared client fails with [e], the promise is rejected with [e]
    itself, and the outcome of the call is the same whatever the API
    helper's network-error handler would do. *)
Theorem failure_bypasses_handleNetworkError
    (op : operation) (w : World access) (client a : access) (e : error) :
  prepared ext w client ->
  api (that w) = Access a ->
  local_steps_ok ext op ->
  (forall r, access_post ext (wire w) client r = Err e) ->
  fst (call (perform ext op) w) = Rejected e /\
  forall h,
    call (perform (with_handleNetworkError ext h) op) w = call (perform ext op) w.
Proof.
  intros Hprep Ha Hl Hp. split; [|intros h; destruct op; reflexivity].
  destruct op; cbn [local_steps_ok] in Hl;
    try (run_prepared Hprep; rewrite ?Ha; cbn; rewrite Hp; reflexivity).
  - destruct Hl as (resolved & file & Hr & Hf).
    run_prepared Hprep. rewrite Ha, Hr. cbn. rewrite Hf. cbn.
    rewrite Hp. reflexivity.
  - destruct Hl as [Ht | (u & x & Hu & Hx)].
    + unfold call, perform, contentRetrieve. rewrite Ht. cbn [negb].
      run_prepared Hprep. rewrite Ha. cbn. rewrite Hp. reflexivity.
    + unfold call, perform, contentRetrieve. rewrite Hu, Hx.
      destruct (truthy fileExtension); cbn [negb];
        run_prepared Hprep; rewrite Ha; cbn; rewrite Hp; reflexivity.
Qed.

(** C2 (what the code does). [jobDetail] has no validation step in its
    chain: a prepared client gets the body of whatever answer the POST
    resolved with, and the outcome of the call is the same whatever the
    shared response validation would say. *)
Theorem jobDetail_skips_validation
    (handle : value) (w : World access) (client : access) (res body : value) :
  prepared ext w client ->
  let r := {| Request.url := access_url ext client "/job/detail";
              Request.json := VObj [("handle", handle)];
              Request.formData := None |} in
  access_post ext (wire w) client r = Ok (res, body) ->
  call (jobDetail ext handle) w = (Resolved body, sent w client r) /\
  forall v,
    call (jobDetail (with_validateResponse ext v) handle) w =
    call (jobDetail ext handle) w.
Proof.
  intros Hprep r Hp. split; [|reflexivity].
  run_prepared Hprep. cbn. fold r. rewrite Hp. reflexivity.
Qed.

(** X24. Every operation but [jobDetail] rejects an answer that the
    shared response validation refuses, with the validation's error as
    it is. *)
Lemma siblings_validate
    (op : operation) (w : World access) (client a : access)
    (res body : value) (e : error) :
  is_jobDetail op = false ->
  prepared ext w client ->
  api (that w) = Access a ->
  local_steps_ok ext op ->
  (forall r, access_post ext (wire w) client r = Ok (res, body)) ->
  access_validateResponse ext a res body = Err e ->
  fst (call (perform ext op) w) = Rejected e.
Proof.
  intros Hj Hprep Ha Hl Hp Hv.
  destruct op; try discriminate Hj; cbn [local_steps_ok] in Hl;
    try (run_prepared Hprep; rewrite Ha; cbn; rewrite Hp; cbn; rewrite Hv;
         reflexivity).
  - destruct Hl as (resolved & file & Hr & Hf).
    run_prepared Hprep. rewrite Ha, Hr. cbn. rewrite Hf. cbn.
    rewrite Hp. cbn. rewrite Hv. reflexivity.
  - destruct Hl as [Ht | (u & x & Hu & Hx)].
    + unfold call, perform, contentRetrieve. rewrite Ht. cbn [negb].
      run_prepared Hprep. rewrite Ha. cbn. rewrite Hp. cbn. rewrite Hv.
      reflexivity.
    + unfold call, perform, contentRetrieve. rewrite Hu, Hx.
      destruct (truthy fileExtension); cbn [negb];
        run_prepared Hprep; rewrite Ha; cbn; rewrite Hp; cbn; rewrite Hv;
        reflexivity.
Qed.

(** None of the fourteen operations connects or authenticates the
    client: the connected flag is what it was, and the authenticated
    flag is set afterwards only if it was before.  The flags are set by
    [connect], [login] and [setSession] alone. *)
Lemma operations_keep_flags (op : operation) (w : World access) :
  let w' := snd (call (perform ext op) w) in
  connected (that w') = connected (that w) /\
  (authenticated (that w') = true -> authenticated (that w) = true).
Proof.
  cbv zeta.
  destruct op;
    unfold call, perform, logout, contentDetail, contentUpload,
      contentRetrieve, contentPurchase, contentPurchaseRemove, jobCreate,
      jobDetail, jobUpdate, jobStart, jobAbort, jobRetry, jobRemove,
      jobContentExists, prepare, isConnected, isAuthenticated,
      that_api_validateResponse, that_handleNetworkError,
      then_, spread, catch, bind, postAsync, lift, ret, modify;
    repeat (match goal with
            | |- context [match ?x with _ => _ end] =>
                lazymatch x with
                | context [match _ with _ => _ end] => fail
                | _ => destruct x eqn:?
                end
            end; cbn [fst snd negb that wire]);
    cbn in *; split; congruence.
Qed.

(** The login chain validates too. *)
Lemma login_validates
    (username password : value) (w : World access) (a : access)
    (res body : value) (e : error) :
  api (that w) = Access a ->
  access_post ext (wire w) a (login_request ext username password w a) =
    Ok (res, body) ->
  access_validateResponse ext a res body = Err e ->
  fst (call (login ext username password) w) =
    settled (access_handleNetworkError ext a e).
Proof.
  intros Ha Hp Hv.
  unfold login_request in *.
  unfold call, login, that_api_validateResponse, that_api_handleNetworkError.
  rewrite Ha. unfold spread, catch, bind, postAsync, lift, js_or.
  rewrite Hp. cbn [fst snd]. rewrite Hv.
  destruct (access_handleNetworkError ext a e); reflexivity.
Qed.

End Properties.

(** ** The statements at concrete clients *)

Lemma ready_prepared (server : Request.t -> result (value * value)) :
  prepared (Demo.ext server) (Demo.ready server) Demo.token_client.
Proof. repeat split. Defined.

Lemma prepare_guard_witness :
  (exists e,
     call (prepare (Demo.ext Demo.unreachable) None VUndefined) Demo.fresh =
       (Thrown e, Demo.fresh)) /\
  call (prepare (Demo.ext Demo.unreachable) None VUndefined)
       (Demo.ready Demo.unreachable) =
    (Resolved Demo.token_client, Demo.ready Demo.unreachable).
Proof.
  split.
  - destruct (prepare_guard (Demo.ext Demo.unreachable) None VUndefined
                Demo.fresh) as [H _].
    destruct (H eq_refl) as (e & He & _). exists e. exact He.
  - destruct (prepare_guard (Demo.ext Demo.unreachable) None VUndefined
                (Demo.ready Demo.unreachable)) as [_ H].
    apply (H eq_refl Demo.token_client). reflexivity.
Defined.

Lemma url_builders_witness :
  urlPurchase (VObj [("token", VStr "t"); ("ext", VStr "mp4")]) VUndefined
    Demo.fresh = (Ok (VStr "//cdn.oose.io/t/video.mp4"), Demo.fresh) /\
  urlPurchase (VObj [("ext", VStr "webm"); ("token", VNum 7)]) (VStr "clip")
    Demo.fresh = (Ok (VStr "//cdn.oose.io/7/clip.webm"), Demo.fresh) /\
  urlStatic (VStr "abc123") VUndefined VUndefined Demo.fresh =
    (Ok (VStr "//cdn.oose.io/static/abc123/file.bin"), Demo.fresh).
Proof.
  destruct (url_builders Demo.fresh eq_refl) as (Hp & _ & Hd).
  destruct (Hd eq_refl) as (H1 & _ & H3 & _).
  split; [exact H1|split; [|exact H3]].
  apply (Hp [("ext", VStr "webm"); ("token", VNum 7)] (VStr "clip")
            (VNum 7) (VStr "webm")); reflexivity.
Defined.

Lemma jobContentUrl_builds_witness :
  jobContentUrl (VStr "h1") (VStr "f.txt") (Demo.ready Demo.unreachable) =
    (Ok (VStr "https://example.com:5971/job/content/download/h1/f.txt"),
     Demo.ready Demo.unreachable) /\
  jobContentUrl (VNum 42) (VArr [VStr "a"; VNull; VNum (-7)])
    (Demo.ready Demo.unreachable) =
    (Ok (VStr "https://example.com:5971/job/content/download/42/a,,-7"),
     Demo.ready Demo.unreachable).
Proof.
  destruct (jobContentUrl_builds (Demo.ready Demo.unreachable)
              eq_refl eq_refl) as [Hg H].
  split.
  - apply H. reflexivity.
  - apply (Hg (VNum 42) (VArr [VStr "a"; VNull; VNum (-7)]) eq_refl eq_refl).
Defined.

Lemma connect_selects_host_witness :
  fst (call (connect (Demo.ext Demo.unreachable) (VStr "example.com") VUndefined)
            Demo.fresh) = Resolved (VStr "example.com") /\
  fst (call (connect (Demo.ext Demo.unreachable) VUndefined VUndefined)
            Demo.fresh) = Resolved (VStr "cdn.oose.io") /\
  fst (call (connect (Demo.ext Demo.unreachable) VUndefined VUndefined)
            Demo.configured) = Resolved (VStr "prism.example.com").
Proof.
  split; [|split].
  - destruct (connect_selects_host (Demo.ext Demo.unreachable)
                (VStr "example.com") VUndefined Demo.fresh)
      as (_ & _ & H & _).
    destruct (H eq_refl) as (_ & _ & Hr).
    apply (Hr Demo.plain_client). reflexivity.
  - destruct (connect_selects_host (Demo.ext Demo.unreachable)
                VUndefined VUndefined Demo.fresh)
      as (_ & _ & _ & H).
    destruct (H eq_refl) as (_ & _ & Hr).
    apply (Hr {| Demo.options :=
                   {| PrismOpts.host := VStr "cdn.oose.io";
                      PrismOpts.port := VNum 5971 |};
                 Demo.headers := [] |}). reflexivity.
  - destruct (connect_selects_host (Demo.ext Demo.unreachable)
                VUndefined VUndefined Demo.configured)
      as (_ & _ & _ & H).
    destruct (H eq_refl) as (_ & _ & Hr).
    apply (Hr {| Demo.options :=
                   {| PrismOpts.host := VStr "prism.example.com";
                      PrismOpts.port := VNum 8080 |};
                 Demo.headers := [] |}). reflexivity.
Defined.

(** C5 as stated fails on a client that has a prism host and port of
    its own: [connect()] keeps them, and neither falls back to the
    domain and port 5971 nor resolves to the domain. *)
Lemma connect_omitted_host_counterexample :
  let r := fst (call (connect (Demo.ext Demo.unreachable) VUndefined VUndefined)
                     Demo.configured) in
  let w' := snd (call (connect (Demo.ext Demo.unreachable) VUndefined VUndefined)
                      Demo.configured) in
  Opts.domain (opts (that w')) = VStr "cdn.oose.io" /\
  ~ (PrismOpts.host (Opts.prism (opts (that w'))) = VStr "cdn.oose.io" /\
     PrismOpts.port (Opts.prism (opts (that w'))) = VNum 5971 /\
     r = Resolved (VStr "cdn.oose.io")).
Proof.
  split; [reflexivity|].
  intros (H & _). discriminate H.
Qed.

Lemma login_without_session_witness :
  let ext := Demo.ext (Demo.answers (VObj [])) in
  let w := snd (call (connect ext (VStr "example.com") VUndefined) Demo.fresh) in
  fst (call (login ext (VStr "u") (VStr "p")) w) =
    Rejected (UserError "Login failed, no session") /\
  authenticated (that (snd (call (login ext (VStr "u") (VStr "p")) w))) = false /\
  session (that (snd (call (login ext (VStr "u") (VStr "p")) w))) = VObj [].
Proof.
  intros ext w.
  destruct (@login_without_session _ ext (VStr "u") (VStr "p") w
              Demo.plain_client Demo.ok_response (VObj [])
              Demo.ok_response (VObj []) VUndefined
              eq_refl eq_refl eq_refl eq_refl eq_refl)
    as (_ & Hr & _ & _ & Hs & Ha).
  split; [apply Hr; reflexivity|].
  split; [apply Ha; reflexivity|exact Hs].
Defined.

(** C3 as stated fails on a client that is already authenticated: the
    answer has no session, the login is rejected, and the flag is still
    true. *)
Lemma login_without_session_counterexample :
  let ext := Demo.ext (Demo.answers (VObj [])) in
  let w := Demo.ready (Demo.answers (VObj [])) in
  get_prop (VObj []) "session" = Ok VUndefined /\
  fst (call (login ext (VStr "u") (VStr "p")) w) =
    Rejected (UserError "Login failed, no session") /\
  ~ authenticated (that (snd (call (login ext (VStr "u") (VStr "p")) w))) = false.
Proof.
  split; [reflexivity|split; [reflexivity|]].
  intros H. discriminate H.
Qed.

Lemma jobCreate_payload_witness :
  let ext := Demo.ext (Demo.answers (VObj [])) in
  let w := Demo.ready (Demo.answers (VObj [])) in
  let q := String "034"%char EmptyString in
  let b := String "092"%char EmptyString in
  let d1 := VObj [("a", VNum 1)] in
  let d2 :=
    VObj [("note", VStr ("x" ++ q ++ "y" ++ b ++ String "010"%char EmptyString));
          ("10", VArr [VBool true; VUndefined; VNull; VNum (-3)]);
          ("2", VObj [("u", VUndefined)]);
          ("z", VUndefined)] in
  wire (snd (call (jobCreate ext d1 VUndefined VUndefined) w)) =
    [(Demo.token_client,
      {| Request.url := VStr "https://example.com:5971/job/create";
         Request.json :=
           VObj [("description", VStr ("{" ++ q ++ "a" ++ q ++ ":1}"));
                 ("priority", VNull);
                 ("category", VStr "resource")];
         Request.formData := None |})] /\
  wire (snd (call (jobCreate ext d2 (VNum 5) (VStr "augment")) w)) =
    [(Demo.token_client,
      {| Request.url := VStr "https://example.com:5971/job/create";
         Request.json :=
           VObj [("description",
                  VStr ("{" ++ q ++ "2" ++ q ++ ":{}," ++
                        q ++ "10" ++ q ++ ":[true,null,null,-3]," ++
                        q ++ "note" ++ q ++ ":" ++
                        q ++ "x" ++ b ++ q ++ "y" ++ b ++ b ++ b ++ "n" ++ q ++
                        "}"));
                 ("priority", VNum 5);
                 ("category", VStr "augment")];
         Request.formData := None |})].
Proof.
  intros ext w q b d1 d2. split.
  - destruct (@jobCreate_payload _ ext d1 VUndefined VUndefined w
                Demo.token_client (ready_prepared _) eq_refl)
      as (payload & Hw & Hp & _).
    rewrite Hw, Hp. reflexivity.
  - destruct (@jobCreate_payload _ ext d2 (VNum 5) (VStr "augment") w
                Demo.token_client (ready_prepared _) eq_refl)
      as (payload & Hw & Hp & _).
    rewrite Hw, Hp. reflexivity.
Defined.

Lemma jobUpdate_body_is_changes_witness :
  let ext := Demo.ext (Demo.answers (VObj [])) in
  let w := Demo.ready (Demo.answers (VObj [])) in
  let changes := VObj [("priority", VNum 3)] in
  wire (snd (call (jobUpdate ext (VStr "h1") changes) w)) =
    [(Demo.token_client,
      {| Request.url := VStr "https://example.com:5971/job/update";
         Request.json := changes;
         Request.formData := None |})] /\
  call (jobUpdate ext (VStr "h2") changes) w =
    call (jobUpdate ext (VStr "h1") changes) w.
Proof.
  intros ext w changes.
  destruct (@jobUpdate_body_is_changes _ ext (VStr "h1") changes w
              Demo.token_client (ready_prepared _)) as (Hw & Hh).
  split; [exact Hw|apply Hh].
Defined.

Lemma failure_bypasses_handleNetworkError_witness :
  let ext := Demo.ext Demo.unreachable in
  let w := Demo.ready Demo.unreachable in
  let e := Raised (VStr "connect ECONNREFUSED") in
  fst (call (contentDetail ext (VStr "abc")) w) = Rejected e /\
  access_handleNetworkError ext Demo.token_client e <> Err e /\
  fst (call (login ext (VStr "u") (VStr "p")) w) =
    settled (access_handleNetworkError ext Demo.plain_client e).
Proof.
  intros ext w e.
  destruct (@failure_bypasses_handleNetworkError _ ext
              (ContentDetail (VStr "abc")) w Demo.token_client
              Demo.plain_client e (ready_prepared _) eq_refl I
              (fun _ => eq_refl)) as (Hr & _).
  split; [exact Hr|]. split; [discriminate|reflexivity].
Defined.

Lemma jobDetail_skips_validation_witness :
  let ext := Demo.ext Demo.failing in
  let w := Demo.ready Demo.failing in
  let body := VObj [("error", VStr "Internal error")] in
  fst (call (jobDetail ext (VStr "h1")) w) = Resolved body /\
  access_validateResponse ext Demo.plain_client
    (VObj [("statusCode", VNum 500)]) body =
    Err (UserError "Invalid response code") /\
  fst (call (jobStart ext (VStr "h1")) w) =
    Rejected (UserError "Invalid response code").
Proof.
  intros ext w body.
  destruct (@jobDetail_skips_validation _ ext (VStr "h1") w Demo.token_client
              (VObj [("statusCode", VNum 500)]) body
              (ready_prepared _) eq_refl) as (Hr & _).
  split; [rewrite Hr; reflexivity|]. split; reflexivity.
Defined.

(** ** Further properties of the client *)

Section Coverage.

Variable access : Type.
Variable ext : External access.

(** Unfold an operation down to the calls of its collaborators. *)
Ltac unfold_operation :=
  unfold call, perform, logout, contentDetail, contentUpload, contentRetrieve,
    contentPurchase, contentPurchaseRemove, jobCreate, jobDetail, jobUpdate,
    jobStart, jobAbort, jobRetry, jobRemove, jobContentExists.

Ltac unfold_chain :=
  unfold that_api_validateResponse, that_handleNetworkError,
    then_, spread, catch, bind, postAsync, lift, ret, modify, js_or.

(** Split on the innermost scrutinee left in the goal. *)
Ltac split_innermost :=
  match goal with
  | |- context [match ?x with _ => _ end] =>
      lazymatch x with
      | context [match _ with _ => _ end] => fail
      | _ => destruct x eqn:?
      end
  end.

Lemma prepare_of_prepared (w : World access) (client : access) :
  prepared ext w client -> prepare ext None VUndefined w = Started (ret client).
Proof.
  intros (Hc & Ha & Hs). unfold prepare, isConnected, isAuthenticated.
  cbn [truthy negb]. rewrite Hs, Hc, Ha. reflexivity.
Qed.

Lemma prepare_refuses (w : World access) :
  connected (that w) && authenticated (that w) = false ->
  exists e,
    prepare ext None VUndefined w = Threw e (fun w' => w') /\
    forall client,
      api_setSession ext (session (that w)) (api (that w)) "X-OOSE-Token" =
        Ok client ->
      e = UserError (if connected (that w) then "Not authenticated"
                     else "Not connected").
Proof.
  intros H. unfold prepare, isConnected, isAuthenticated. cbn [truthy negb].
  destruct (api_setSession ext _ _ _) as [cl|e0].
  - destruct (connected (that w)); destruct (authenticated (that w));
      try discriminate H; cbn;
      (eexists; split; [reflexivity|intros c _; reflexivity]).
  - exists e0. split; [reflexivity|intros c Hc; discriminate Hc].
Qed.

(** *** login *)

(** X2. A login whose POST fails, or whose answer the shared validation
    refuses, ends as the API helper's handler decides for that error;
    the one login request went out and the client is as it was (not
    authenticated by the attempt, session untouched). *)
Theorem login_failure_leaves_client
    (username password : value) (w : World access) (a : access) (e : error) :
  api (that w) = Access a ->
  access_post ext (wire w) a (login_request ext username password w a) = Err e \/
  (exists res body,
     access_post ext (wire w) a (login_request ext username password w a) =
       Ok (res, body) /\
     access_validateResponse ext a res body = Err e) ->
  call (login ext username password) w =
    (settled (access_handleNetworkError ext a e),
     sent w a (login_request ext username password w a)).
Proof.
  intros Ha H. unfold login_request in *.
  unfold call, login, that_api_validateResponse, that_api_handleNetworkError.
  rewrite Ha. unfold spread, catch, bind, postAsync, lift, js_or, sent.
  destruct H as [Hp | (res & body & Hp & Hv)]; rewrite Hp; cbn [fst snd].
  - destruct (access_handleNetworkError ext a e); reflexivity.
  - rewrite Hv. destruct (access_handleNetworkError ext a e); reflexivity.
Qed.

(** X3. On a client that was only constructed, [login] throws a
    TypeError before any promise exists: [this.api] is still the empty
    object.  Nothing is sent and the client is as it was. *)
Theorem login_before_connect
    (o : Load.t) (username password : value)
    (sent_so_far : list (access * Request.t)) :
  let w := {| that := Prism_new access o; wire := sent_so_far |} in
  call (login ext username password) w = (Thrown TypeError, w).
Proof. reflexivity. Qed.

(** X4. Once the client has a request client, [login] sends exactly one
    request, whatever comes back: to [/user/login], through the request
    client of [this.api] (not one bound to a session), with the
    credentials given, or the configured ones where an argument is
    left out or empty. *)
Theorem login_sends_credentials
    (username password : value) (w : World access) (a : access) :
  api (that w) = Access a ->
  let r := login_request ext username password w a in
  wire (snd (call (login ext username password) w)) =
    (wire w ++ [(a, r)])%list /\
  Request.url r = access_url ext a "/user/login" /\
  (truthy username = false ->
   get_prop (Request.json r) "username" = Ok (Opts.username (opts (that w)))) /\
  (truthy username = true ->
   get_prop (Request.json r) "username" = Ok username) /\
  (truthy password = false ->
   get_prop (Request.json r) "password" = Ok (Opts.password (opts (that w)))) /\
  (truthy password = true ->
   get_prop (Request.json r) "password" = Ok password).
Proof.
  intros Ha r. split.
  - unfold r, login_request.
    unfold call, login, that_api_validateResponse, that_api_handleNetworkError.
    rewrite Ha. unfold spread, catch, bind, postAsync, lift, js_or, throw, gets,
      modify.
    repeat (split_innermost; cbn [fst snd negb that wire]); reflexivity.
  - unfold r, login_request; cbn.
    repeat split; intros H; rewrite H; reflexivity.
Qed.

(** *** The operations, whatever the client *)

(** X5. An operation called on a client that is not connected, or not
    authenticated, throws before any promise exists; nothing is sent
    and the client is as it was.  When the API helper binds the session
    without complaint and [contentRetrieve] has its extension, the
    error is the [UserError] of the guard that failed. *)
Theorem operations_throw_when_unprepared (op : operation) (w : World access) :
  connected (that w) && authenticated (that w) = false ->
  exists e,
    call (perform ext op) w = (Thrown e, w) /\
    forall client,
      api_setSession ext (session (that w)) (api (that w)) "X-OOSE-Token" =
        Ok client ->
      sync_steps_ok ext op ->
      e = UserError (if connected (that w) then "Not authenticated"
                     else "Not connected").
Proof.
  intros H. destruct (prepare_refuses w H) as (e & He & Hu).
  destruct op; unfold_operation;
    try (rewrite He; exists e; split; [reflexivity|intros c Hc _; eauto]).
  destruct (truthy fileExtension) eqn:Ht; cbn [negb].
  - rewrite He. exists e. split; [reflexivity|intros c Hc _; eauto].
  - destruct (get_prop request "url") as [u|e1] eqn:Hg.
    + destruct (path_extname ext u) as [x|e2] eqn:Hx.
      * rewrite He. exists e. split; [reflexivity|intros c Hc _; eauto].
      * exists e2. split; [reflexivity|].
        intros c _ [Hf | (u' & x' & Hu' & Hx')]; congruence.
    + exists e1. split; [reflexivity|].
      intros c _ [Hf | (u' & x' & Hu' & Hx')]; congruence.
Qed.

(** X6. Whatever happens, an operation sends at most one request, and
    it sends it through the request client that [api.setSession] bound
    to the client's own session. *)
Theorem operations_send_at_most_one (op : operation) (w : World access) :
  let w' := snd (call (perform ext op) w) in
  wire w' = wire w \/
  exists client r,
    api_setSession ext (session (that w)) (api (that w)) "X-OOSE-Token" =
      Ok client /\
    wire w' = (wire w ++ [(client, r)])%list.
Proof.
  cbv zeta.
  destruct op; unfold_operation;
    unfold prepare, isConnected, isAuthenticated; cbn [truthy negb];
    try (destruct (truthy fileExtension); cbn [negb];
         [|destruct (get_prop request "url") as [u|];
           [destruct (path_extname ext u)|]; try (left; reflexivity)]);
    (destruct (api_setSession ext _ _ _) as [cl|e0] eqn:Hs;
     [|left; reflexivity]);
    (destruct (connected (that w)); [|left; reflexivity]);
    (destruct (authenticated (that w)); [|left; reflexivity]);
    unfold_chain; cbn [negb];
    repeat (split_innermost; cbn [fst snd negb that wire]);
    first [ left; reflexivity
          | right; eexists; eexists; split; [reflexivity|reflexivity] ].
Qed.

(** X7. An operation never changes the options, the request client, the
    session or the connected flag of the client, and never sets the
    authenticated flag; only [logout] can clear it. *)
Theorem operations_frame (op : operation) (w : World access) :
  let w' := snd (call (perform ext op) w) in
  opts (that w') = opts (that w) /\
  api (that w') = api (that w) /\
  session (that w') = session (that w) /\
  connected (that w') = connected (that w) /\
  (authenticated (that w') = true -> authenticated (that w) = true) /\
  (is_logout op = false -> that w' = that w).
Proof.
  cbv zeta.
  destruct op; unfold_operation;
    unfold prepare, isConnected, isAuthenticated; unfold_chain;
    repeat (split_innermost; cbn [fst snd negb that wire]);
    cbn in *; repeat split; try congruence; try discriminate.
Qed.

(** X8. Without a request client in [this.api], every operation but
    [jobDetail] throws before any promise exists: either [prepare()]
    refuses, or [that.api.validateResponse] is not there to call. *)
Theorem operations_need_request_client (op : operation) (w : World access) :
  api (that w) = EmptyObject ->
  is_jobDetail op = false ->
  exists e, fst (call (perform ext op) w) = Thrown e.
Proof.
  intros Ha Hj.
  destruct op; try discriminate Hj; unfold_operation;
    try (destruct (truthy fileExtension); cbn [negb];
         [|destruct (get_prop request "url") as [u|];
           [destruct (path_extname ext u)|]; try (eexists; reflexivity)]);
    (destruct (prepare ext None VUndefined w) as [p|e o];
     unfold_chain; rewrite ?Ha; cbn; eexists; reflexivity).
Qed.

(** *** The operations of a prepared client *)

(** X9. Every operation whose last step is [return body] resolves, on
    an answer that the shared validation accepts, to the body that the
    validation hands on (not to the raw body of the answer). *)
Theorem operation_resolves_validated_body
    (op : operation) (w : World access) (client a : access)
    (res body res' body' : value) :
  returns_body op = true ->
  prepared ext w client ->
  api (that w) = Access a ->
  local_steps_ok ext op ->
  (forall r, access_post ext (wire w) client r = Ok (res, body)) ->
  access_validateResponse ext a res body = Ok (res', body') ->
  fst (call (perform ext op) w) = Resolved body'.
Proof.
  intros Hb Hprep Ha Hl Hp Hv.
  destruct op; try discriminate Hb; cbn [local_steps_ok] in Hl;
    unfold_operation;
    try (rewrite (prepare_of_prepared Hprep); unfold_chain; rewrite Ha; cbn;
         rewrite Hp; cbn; rewrite Hv; reflexivity).
  - destruct Hl as (resolved & file & Hr & Hf).
    rewrite (prepare_of_prepared Hprep); unfold_chain. rewrite Ha, Hr. cbn.
    rewrite Hf. cbn. rewrite Hp. cbn. rewrite Hv. reflexivity.
  - destruct Hl as [Ht | (u & x & Hu & Hx)].
    + rewrite Ht. cbn [negb].
      rewrite (prepare_of_prepared Hprep); unfold_chain. rewrite Ha. cbn.
      rewrite Hp. cbn. rewrite Hv. reflexivity.
    + rewrite Hu, Hx.
      destruct (truthy fileExtension); cbn [negb];
        rewrite (prepare_of_prepared Hprep); unfold_chain; rewrite Ha; cbn;
        rewrite Hp; cbn; rewrite Hv; reflexivity.
Qed.

(** X10. A [logout] that the service accepts resolves to the validated
    body and clears the authenticated flag, so that a later [prepare()]
    throws [UserError('Not authenticated')]; the stored session is
    kept as it is. *)
Theorem logout_clears_authenticated
    (w : World access) (client a : access) (res body res' body' : value) :
  prepared ext w client ->
  api (that w) = Access a ->
  access_post ext (wire w) client (logout_request ext client) = Ok (res, body) ->
  access_validateResponse ext a res body = Ok (res', body') ->
  let w' := snd (call (logout ext) w) in
  fst (call (logout ext) w) = Resolved body' /\
  isAuthenticated (that w') = false /\
  session (that w') = session (that w) /\
  wire w' = (wire w ++ [(client, logout_request ext client)])%list /\
  call (prepare ext None VUndefined) w' =
    (Thrown (UserError "Not authenticated"), w').
Proof.
  intros Hprep Ha Hp Hv. cbv zeta.
  assert (Hcall : call (logout ext) w =
            (Resolved body',
             {| that := set_authenticated false (that w);
                wire := wire w ++ [(client, logout_request ext client)] |})).
  { unfold logout_request in *. unfold call, logout.
    rewrite (prepare_of_prepared Hprep). unfold_chain. rewrite Ha. cbn.
    rewrite Hp. cbn. rewrite Hv. reflexivity. }
  rewrite Hcall. cbn [fst snd that wire]. repeat split.
  destruct Hprep as (Hc & _ & Hs).
  unfold call, prepare, isConnected, isAuthenticated. cbn.
  rewrite Hs, Hc. reflexivity.
Qed.

(** X11. A [logout] whose POST fails, or whose answer the shared
    validation refuses, is rejected with that error as it is, and the
    client stays as it was: still authenticated, with its session. *)
Theorem logout_failure_stays_authenticated
    (w : World access) (client a : access) (e : error) :
  prepared ext w client ->
  api (that w) = Access a ->
  access_post ext (wire w) client (logout_request ext client) = Err e \/
  (exists res body,
     access_post ext (wire w) client (logout_request ext client) =
       Ok (res, body) /\
     access_validateResponse ext a res body = Err e) ->
  call (logout ext) w = (Rejected e, sent w client (logout_request ext client)).
Proof.
  intros Hprep Ha H. unfold logout_request in *. unfold call, logout.
  rewrite (prepare_of_prepared Hprep). unfold_chain. rewrite Ha. cbn.
  destruct H as [Hp | (res & body & Hp & Hv)]; rewrite Hp; cbn.
  - reflexivity.
  - rewrite Hv. reflexivity.
Qed.

(** X12. [jobContentExists] never resolves to anything but a boolean:
    the truthiness of the [exists] property of the validated body,
    false when the body has no such property. *)
Theorem jobContentExists_boolean (handle file : value) (w : World access) :
  (forall v,
     fst (call (jobContentExists ext handle file) w) = Resolved v ->
     exists b, v = VBool b) /\
  (forall client a res body res' body' x,
     prepared ext w client ->
     api (that w) = Access a ->
     (forall r, access_post ext (wire w) client r = Ok (res, body)) ->
     access_validateResponse ext a res body = Ok (res', body') ->
     get_prop body' "exists" = Ok x ->
     fst (call (jobContentExists ext handle file) w) =
       Resolved (VBool (truthy x))).
Proof.
  split.
  - intros v. unfold call, jobContentExists, prepare, isConnected,
      isAuthenticated. unfold_chain.
    repeat (split_innermost; cbn [fst snd negb that wire]);
      cbn; intros H; inversion H; eexists; reflexivity.
  - intros client a res body res' body' x Hprep Ha Hp Hv Hx.
    unfold call, jobContentExists.
    rewrite (prepare_of_prepared Hprep). unfold_chain. rewrite Ha. cbn.
    rewrite Hp. cbn. rewrite Hv. cbn. rewrite Hx. reflexivity.
Qed.

(** X13. [contentRetrieve] sends the request description together with
    an extension: the one given, or else what [path.extname] finds on
    the URL of the description, without its first dot (so [.mp4] goes
    out as [mp4]). *)
Theorem contentRetrieve_extension
    (request fileExtension : value) (w : World access) (client : access) :
  prepared ext w client ->
  let w' := snd (call (contentRetrieve ext request fileExtension) w) in
  (truthy fileExtension = true ->
   wire w' =
     (wire w ++
        [(client, contentRetrieve_request ext request fileExtension client)])%list) /\
  (forall u e,
     truthy fileExtension = false ->
     get_prop request "url" = Ok u ->
     path_extname ext u = Ok e ->
     wire w' =
       (wire w ++
          [(client,
            contentRetrieve_request ext request (VStr (replace_dot e)) client)])%list /\
     forall s, e = String "."%char s -> replace_dot e = s).
Proof.
  intros Hprep. cbv zeta. unfold contentRetrieve_request. split.
  - intros Ht. unfold call, contentRetrieve. rewrite Ht. cbn [negb].
    rewrite (prepare_of_prepared Hprep). unfold_chain.
    repeat (split_innermost; cbn [fst snd negb that wire]); reflexivity.
  - intros u e Ht Hu He. split; [|intros s ->; reflexivity].
    unfold call, contentRetrieve. rewrite Ht, Hu, He. cbn [negb].
    rewrite (prepare_of_prepared Hprep). unfold_chain.
    repeat (split_innermost; cbn [fst snd negb that wire]); reflexivity.
Qed.

(** X14. Without an extension and without a URL to take one from (no
    request description, or a URL that [path.extname] refuses),
    [contentRetrieve] throws before it even calls [prepare()]: nothing
    is sent, whatever the state of the client. *)
Theorem contentRetrieve_throws_without_url
    (request fileExtension : value) (w : World access) (e : error) :
  truthy fileExtension = false ->
  get_prop request "url" = Err e \/
  (exists u, get_prop request "url" = Ok u /\ path_extname ext u = Err e) ->
  call (contentRetrieve ext request fileExtension) w = (Thrown e, w).
Proof.
  intros Ht H. unfold call, contentRetrieve. rewrite Ht. cbn [negb].
  destruct H as [Hu | (u & Hu & He)]; rewrite Hu; [|rewrite He]; reflexivity.
Qed.

(** X15. [contentUpload] opens the file before it posts: when the path
    cannot be resolved or the file cannot be opened, the promise is
    rejected with that error and nothing is sent; otherwise the stream
    goes out as the form field [file] of one request. *)
Theorem contentUpload_opens_file_first
    (filepath : value) (w : World access) (client a : access) :
  prepared ext w client ->
  api (that w) = Access a ->
  (forall e,
     path_resolve ext filepath = Err e \/
     (exists p, path_resolve ext filepath = Ok p /\
                fs_createReadStream ext p = Err e) ->
     call (contentUpload ext filepath) w = (Rejected e, w)) /\
  (forall p file,
     path_resolve ext filepath = Ok p ->
     fs_createReadStream ext p = Ok file ->
     wire (snd (call (contentUpload ext filepath) w)) =
       (wire w ++ [(client, contentUpload_request ext file client)])%list).
Proof.
  intros Hprep Ha. split.
  - intros e H. unfold call, contentUpload.
    rewrite (prepare_of_prepared Hprep). unfold_chain. rewrite Ha. cbn.
    destruct H as [Hr | (p & Hr & Hf)]; rewrite Hr; cbn; [|rewrite Hf; cbn];
      destruct w; reflexivity.
  - intros p file Hr Hf. unfold contentUpload_request, call, contentUpload.
    rewrite (prepare_of_prepared Hprep). unfold_chain. rewrite Ha, Hr. cbn.
    rewrite Hf. cbn.
    repeat (split_innermost; cbn [fst snd negb that wire]); reflexivity.
Qed.

(** *** connect, and what follows it *)

(** What one [connect] does to the client, field by field. *)
Lemma connect_effect (host port : value) (w : World access) :
  let w' := snd (call (connect ext host port) w) in
  Opts.prism (opts (that w')) = connect_selection host port (that w) /\
  Opts.username (opts (that w')) = Opts.username (opts (that w)) /\
  Opts.password (opts (that w')) = Opts.password (opts (that w)) /\
  Opts.domain (opts (that w')) = Opts.domain (opts (that w)) /\
  authenticated (that w') = authenticated (that w) /\
  session (that w') = session (that w) /\
  connected (that w') = true /\
  wire w' = wire w /\
  match connect_access ext host port (that w) with
  | Ok a =>
      api (that w') = Access a /\
      fst (call (connect ext host port) w) =
        Resolved (if truthy host then host
                  else PrismOpts.host (connect_selection host port (that w)))
  | Err e =>
      api (that w') = api (that w) /\
      fst (call (connect ext host port) w) = Rejected e
  end.
Proof.
  cbv zeta. unfold call, connect, connect_access, connect_selection, js_or.
  unfold bind, modify, gets, lift, ret.
  destruct w as [[[u p d [h0 p0]] ap au co se] wi]. cbn.
  destruct (truthy host); cbn.
  - destruct (truthy port); cbn;
      (destruct (api_setupAccess ext "prism" _); cbn; repeat split).
  - destruct (truthy h0); cbn;
      (destruct (truthy p0); cbn;
       (destruct (truthy port); cbn;
        (destruct (api_prism ext _); cbn; repeat split))).
Qed.

(** X16. [connect] marks the client connected before it asks the API
    helper for the request client: when the helper throws, the promise
    is rejected with its error, yet [isConnected()] is true, the host
    and port are already selected and [this.api] is what it was. *)
Theorem connect_failure_still_connected
    (host port : value) (w : World access) (e : error) :
  connect_access ext host port (that w) = Err e ->
  let w' := snd (call (connect ext host port) w) in
  fst (call (connect ext host port) w) = Rejected e /\
  isConnected (that w') = true /\
  api (that w') = api (that w) /\
  Opts.prism (opts (that w')) = connect_selection host port (that w).
Proof.
  intros He. cbv zeta.
  pose proof (connect_effect host port w) as H. cbv zeta in H.
  rewrite He in H.
  destruct H as (Hs & _ & _ & _ & _ & _ & Hc & _ & Ha & Hr).
  repeat split; assumption.
Qed.

(** X17. [connect] neither authenticates nor touches the session, the
    credentials or the domain of the client. *)
Theorem connect_frame (host port : value) (w : World access) :
  let w' := snd (call (connect ext host port) w) in
  authenticated (that w') = authenticated (that w) /\
  session (that w') = session (that w) /\
  Opts.username (opts (that w')) = Opts.username (opts (that w)) /\
  Opts.password (opts (that w')) = Opts.password (opts (that w)) /\
  Opts.domain (opts (that w')) = Opts.domain (opts (that w)).
Proof.
  cbv zeta.
  pose proof (connect_effect host port w) as H. cbv zeta in H.
  destruct H as (_ & Hu & Hp & Hd & Ha & Hs & _).
  repeat split; assumption.
Qed.

(** X18. A host selected by [connect(host, port)] stays selected: a
    later [connect()] without a host keeps it, keeps the port when one
    is set, and resolves to that host again. *)
Theorem connect_is_sticky (host port host2 port2 : value) (w : World access) :
  truthy host = true ->
  truthy host2 = false ->
  let w1 := snd (call (connect ext host port) w) in
  let w2 := snd (call (connect ext host2 port2) w1) in
  PrismOpts.host (Opts.prism (opts (that w2))) = host /\
  (truthy (PrismOpts.port (Opts.prism (opts (that w1)))) = true ->
   PrismOpts.port (Opts.prism (opts (that w2))) =
     PrismOpts.port (Opts.prism (opts (that w1)))) /\
  (forall a,
     api_prism ext (Opts.prism (opts (that w2))) = Ok a ->
     fst (call (connect ext host2 port2) w1) = Resolved host).
Proof.
  intros Hh Hh2. cbv zeta.
  pose proof (connect_effect host port w) as H1. cbv zeta in H1.
  destruct H1 as (Hs1 & _).
  set (w1 := snd (call (connect ext host port) w)) in *.
  pose proof (connect_effect host2 port2 w1) as H2. cbv zeta in H2.
  destruct H2 as (Hs2 & _ & _ & _ & _ & _ & _ & _ & Hr).
  assert (Hhost : PrismOpts.host (Opts.prism (opts (that w1))) = host).
  { rewrite Hs1. unfold connect_selection. rewrite Hh. reflexivity. }
  assert (Hsel : PrismOpts.host (connect_selection host2 port2 (that w1)) = host).
  { unfold connect_selection. rewrite Hh2, Hhost, Hh. reflexivity. }
  split; [rewrite Hs2; exact Hsel|]. split.
  - intros Hp. rewrite Hs2. unfold connect_selection.
    rewrite Hh2, Hp. reflexivity.
  - intros a Ha. unfold connect_access in Hr. rewrite Hh2 in Hr.
    rewrite <- Hs2 in Hr. rewrite Ha in Hr. destruct Hr as (_ & Hr).
    rewrite Hr, Hs2, Hsel. reflexivity.
Qed.

(** X19. [connect] and [setSession], in either order, make the client
    ready: [prepare()] then resolves to the request client that the API
    helper binds to [{token}] and to the request client of the
    connection. *)
Theorem connect_and_setSession_prepare
    (host port token : value) (w : World access) (a client : access) :
  connect_access ext host port (that w) = Ok a ->
  api_setSession ext (VObj [("token", token)]) (Access a) "X-OOSE-Token" =
    Ok client ->
  let w1 := snd (setSession token (snd (call (connect ext host port) w))) in
  let w2 := snd (call (connect ext host port) (snd (setSession token w))) in
  call (prepare ext None VUndefined) w1 = (Resolved client, w1) /\
  call (prepare ext None VUndefined) w2 = (Resolved client, w2).
Proof.
  intros Ha Hs. cbv zeta. split.
  - pose proof (connect_effect host port w) as H. cbv zeta in H.
    rewrite Ha in H.
    destruct H as (_ & _ & _ & _ & _ & _ & Hc & _ & Hap & _).
    set (w1 := snd (call (connect ext host port) w)) in *.
    unfold call, prepare, isConnected, isAuthenticated, setSession,
      bind, modify.
    cbn. rewrite Hap, Hs, Hc. reflexivity.
  - pose proof (connect_effect host port (snd (setSession token w))) as H.
    cbv zeta in H.
    change (that (snd (setSession token w)))
      with (set_authenticated true
              (set_session (VObj [("token", token)]) (that w))) in H.
    change (connect_access ext host port
              (set_authenticated true
                 (set_session (VObj [("token", token)]) (that w))))
      with (connect_access ext host port (that w)) in H.
    rewrite Ha in H.
    destruct H as (_ & _ & _ & _ & Hau & Hse & Hc & _ & Hap & _).
    set (w2 := snd (call (connect ext host port) (snd (setSession token w))))
      in *.
    unfold call, prepare, isConnected, isAuthenticated.
    cbn [truthy negb]. rewrite Hse, Hap. cbn [session set_authenticated set_session].
    rewrite Hs, Hc, Hau. reflexivity.
Qed.

(** X20. The session a successful [login] stores is the one the next
    [prepare()] binds: on a connected client it resolves to the request
    client that the API helper makes from that session. *)
Theorem login_then_prepare
    (username password : value) (w : World access) (a client : access)
    (res body res' body' s : value) :
  api (that w) = Access a ->
  connected (that w) = true ->
  access_post ext (wire w) a (login_request ext username password w a) =
    Ok (res, body) ->
  access_validateResponse ext a res body = Ok (res', body') ->
  get_prop body' "session" = Ok s ->
  truthy s = true ->
  api_setSession ext s (Access a) "X-OOSE-Token" = Ok client ->
  let w' := snd (call (login ext username password) w) in
  isAuthenticated (that w') = true /\
  call (prepare ext None VUndefined) w' = (Resolved client, w').
Proof.
  intros Ha Hc Hp Hv Hs Ht Hb. cbv zeta.
  assert (Hcall : call (login ext username password) w =
            (Resolved s,
             {| that := set_authenticated true (set_session s (that w));
                wire := wire w ++ [(a, login_request ext username password w a)] |})).
  { unfold login_request in *.
    unfold call, login, that_api_validateResponse, that_api_handleNetworkError.
    rewrite Ha. unfold spread, catch, bind, postAsync, lift, js_or.
    rewrite Hp. cbn [fst snd]. rewrite Hv. cbn [fst snd]. rewrite Hs.
    rewrite Ht. reflexivity. }
  rewrite Hcall. cbn [snd that]. split; [reflexivity|].
  unfold call, prepare, isConnected, isAuthenticated. cbn.
  rewrite Ha, Hb, Hc. reflexivity.
Qed.

(** X21. After a [connect], [jobContentUrl] points at the host and port
    that the connect selected, whether or not the API helper could set
    up the request client.  Host, port, handle and file are plain data,
    written as the runtime writes them. *)
Theorem jobContentUrl_after_connect
    (host port handle file : value) (w : World access) :
  let w' := snd (call (connect ext host port) w) in
  let selected := connect_selection host port (that w) in
  plain (PrismOpts.host selected) = true ->
  plain (PrismOpts.port selected) = true ->
  plain handle = true ->
  plain file = true ->
  jobContentUrl handle file w' =
    (Ok (VStr ("https://" ++ to_string (PrismOpts.host selected) ++ ":" ++
               to_string (PrismOpts.port selected) ++
               "/job/content/download/" ++ to_string handle ++ "/" ++
               to_string file)), w').
Proof.
  cbv zeta. intros Ph Pp Pa Pf.
  pose proof (connect_effect host port w) as H. cbv zeta in H.
  destruct H as (Hs & _).
  unfold jobContentUrl, bind, gets, ret, plus. rewrite Hs.
  f_equal. f_equal. f_equal. now rewrite !append_assoc.
Qed.

(** X22. Before any [connect], a client constructed without a prism
    host has the host [null], and [jobContentUrl] writes it out as the
    text [null].  Port, handle and file are plain data, written as the
    runtime writes them. *)
Theorem jobContentUrl_before_connect
    (o : Load.t) (handle file : value)
    (sent_so_far : list (access * Request.t)) :
  Load.prism_host o = None ->
  plain (or_default (Load.prism_port o) (VNum 5971)) = true ->
  plain handle = true ->
  plain file = true ->
  let w := {| that := Prism_new access o; wire := sent_so_far |} in
  jobContentUrl handle file w =
    (Ok (VStr ("https://null:" ++
               to_string (or_default (Load.prism_port o) (VNum 5971)) ++
               "/job/content/download/" ++ to_string handle ++ "/" ++
               to_string file)), w).
Proof.
  intros Hh Pp Pa Pf w.
  unfold jobContentUrl, bind, gets, ret, plus, w, Prism_new.
  cbn [that opts Opts.prism PrismOpts.host PrismOpts.port].
  rewrite Hh. cbn [or_default to_string].
  f_equal. f_equal. f_equal. now rewrite !append_assoc.
Qed.

(** X23. [urlPurchase] reads [token] and [ext] off the purchase: with no
    purchase at all it throws a TypeError, and a property the purchase
    does not have is written out as the text [undefined].  Domain, name
    and the property that is there are plain data, written as the
    runtime writes them. *)
Theorem urlPurchase_missing_fields (name : value) (w : World access) :
  plain (Opts.domain (opts (that w))) = true ->
  plain name = true ->
  (forall purchase,
     purchase = VUndefined \/ purchase = VNull ->
     urlPurchase purchase name w = (Err TypeError, w)) /\
  (forall fields e,
     assoc "token" fields = None ->
     assoc "ext" fields = Some e ->
     plain e = true ->
     urlPurchase (VObj fields) name w =
       (Ok (VStr ("//" ++ to_string (Opts.domain (opts (that w))) ++
                  "/undefined/" ++
                  to_string (if truthy name then name else VStr "video") ++
                  "." ++ to_string e)), w)) /\
  (forall fields t,
     assoc "token" fields = Some t ->
     assoc "ext" fields = None ->
     plain t = true ->
     urlPurchase (VObj fields) name w =
       (Ok (VStr ("//" ++ to_string (Opts.domain (opts (that w))) ++ "/" ++
                  to_string t ++ "/" ++
                  to_string (if truthy name then name else VStr "video") ++
                  ".undefined")), w)).
Proof.
  intros Pd Pn. split; [|split].
  - intros purchase [-> | ->]; reflexivity.
  - intros fields e Ht He Pe.
    unfold urlPurchase, bind, gets, lift, ret, get_prop, js_or, plus.
    rewrite Ht, He. cbn [to_string]. f_equal. f_equal. f_equal.
    rewrite !append_assoc. reflexivity.
  - intros fields t Ht He Pt.
    unfold urlPurchase, bind, gets, lift, ret, get_prop, js_or, plus.
    rewrite Ht, He. cbn [to_string]. f_equal. f_equal. f_equal.
    rewrite !append_assoc. reflexivity.
Qed.

End Coverage.

(** ** The further properties at concrete clients *)

Lemma login_with_session_witness :
  let token := VObj [("token", VStr "s1")] in
  let ext := Demo.ext (Demo.answers (VObj [("session", token)])) in
  let w := snd (call (connect ext (VStr "example.com") VUndefined) Demo.fresh) in
  fst (call (login ext (VStr "u") (VStr "p")) w) = Resolved token /\
  authenticated (that (snd (call (login ext (VStr "u") (VStr "p")) w))) = true /\
  session (that (snd (call (login ext (VStr "u") (VStr "p")) w))) = token.
Proof.
  intros token ext w.
  rewrite (@login_with_session _ ext (VStr "u") (VStr "p") w
             Demo.plain_client Demo.ok_response (VObj [("session", token)])
             Demo.ok_response (VObj [("session", token)]) token
             eq_refl eq_refl eq_refl eq_refl eq_refl).
  repeat split.
Defined.

Lemma login_failure_leaves_client_witness :
  let ext := Demo.ext Demo.failing in
  let w := snd (call (connect ext (VStr "example.com") VUndefined) Demo.fresh) in
  fst (call (login ext (VStr "u") (VStr "p")) w) =
    Rejected (UserError "Invalid response code") /\
  that (snd (call (login ext (VStr "u") (VStr "p")) w)) = that w.
Proof.
  intros ext w.
  rewrite (@login_failure_leaves_client _ ext (VStr "u") (VStr "p") w
             Demo.plain_client (UserError "Invalid response code") eq_refl
             (or_intror
                (ex_intro _ (VObj [("statusCode", VNum 500)])
                   (ex_intro _ (VObj [("error", VStr "Internal error")])
                      (conj eq_refl eq_refl))))).
  split; reflexivity.
Defined.

Lemma login_sends_credentials_witness :
  let ext := Demo.ext Demo.unreachable in
  let w := snd (call (connect ext (VStr "example.com") VUndefined) Demo.fresh) in
  wire (snd (call (login ext (VStr "u") VUndefined) w)) =
    [(Demo.plain_client,
      {| Request.url := VStr "https://example.com:5971/user/login";
         Request.json :=
           VObj [("username", VStr "u"); ("password", VStr EmptyString)];
         Request.formData := None |})].
Proof.
  intros ext w.
  destruct (@login_sends_credentials _ ext (VStr "u") VUndefined w
              Demo.plain_client eq_refl) as (Hw & _).
  exact Hw.
Defined.

Lemma operations_throw_when_unprepared_witness :
  let ext := Demo.ext Demo.unreachable in
  let w := snd (call (connect ext (VStr "example.com") VUndefined) Demo.fresh) in
  call (perform ext (JobStart (VStr "h1"))) w =
    (Thrown (UserError "Not authenticated"), w).
Proof.
  intros ext w.
  destruct (@operations_throw_when_unprepared _ ext (JobStart (VStr "h1")) w
              eq_refl) as (e & He & Hu).
  rewrite He.
  rewrite (Hu {| Demo.options := Demo.example_com;
                 Demo.headers := [("X-OOSE-Token", VUndefined)] |}
              eq_refl I).
  reflexivity.
Defined.

Lemma operations_need_request_client_witness :
  exists e,
    fst (call (perform (Demo.ext Demo.unreachable) Logout) Demo.fresh) = Thrown e.
Proof.
  apply (@operations_need_request_client _ (Demo.ext Demo.unreachable) Logout
           Demo.fresh eq_refl eq_refl).
Defined.

Lemma siblings_validate_witness :
  fst (call (perform (Demo.ext Demo.failing)
               (ContentPurchase (VStr "abc") (VStr "mp4") (VArr []) (VNum 60)))
            (Demo.ready Demo.failing)) =
    Rejected (UserError "Invalid response code").
Proof.
  apply (@siblings_validate _ (Demo.ext Demo.failing)
           (ContentPurchase (VStr "abc") (VStr "mp4") (VArr []) (VNum 60))
           (Demo.ready Demo.failing) Demo.token_client Demo.plain_client
           (VObj [("statusCode", VNum 500)])
           (VObj [("error", VStr "Internal error")])
           (UserError "Invalid response code")
           eq_refl (ready_prepared _) eq_refl I (fun _ => eq_refl) eq_refl).
Defined.

Lemma operation_resolves_validated_body_witness :
  let body := VObj [("hash", VStr "abc"); ("count", VNum 2)] in
  fst (call (perform (Demo.ext (Demo.answers body)) (ContentDetail (VStr "abc")))
            (Demo.ready (Demo.answers body))) = Resolved body.
Proof.
  intros body.
  apply (@operation_resolves_validated_body _ (Demo.ext (Demo.answers body))
           (ContentDetail (VStr "abc")) (Demo.ready (Demo.answers body))
           Demo.token_client Demo.plain_client Demo.ok_response body
           Demo.ok_response body
           eq_refl (ready_prepared _) eq_refl I (fun _ => eq_refl) eq_refl).
Defined.

Lemma logout_clears_authenticated_witness :
  let ext := Demo.ext (Demo.answers (VObj [])) in
  let w := Demo.ready (Demo.answers (VObj [])) in
  let w' := snd (call (logout ext) w) in
  isAuthenticated (that w') = false /\
  session (that w') = VObj [("token", VStr "tok")] /\
  call (prepare ext None VUndefined) w' =
    (Thrown (UserError "Not authenticated"), w').
Proof.
  intros ext w w'.
  destruct (@logout_clears_authenticated _ ext w Demo.token_client
              Demo.plain_client Demo.ok_response (VObj [])
              Demo.ok_response (VObj [])
              (ready_prepared _) eq_refl eq_refl eq_refl)
    as (_ & Ha & Hs & _ & Hp).
  split; [exact Ha|]. split; [exact Hs|exact Hp].
Defined.

Lemma logout_failure_stays_authenticated_witness :
  let ext := Demo.ext Demo.unreachable in
  let w := Demo.ready Demo.unreachable in
  fst (call (logout ext) w) = Rejected (Raised (VStr "connect ECONNREFUSED")) /\
  isAuthenticated (that (snd (call (logout ext) w))) = true.
Proof.
  intros ext w.
  rewrite (@logout_failure_stays_authenticated _ ext w Demo.token_client
             Demo.plain_client (Raised (VStr "connect ECONNREFUSED"))
             (ready_prepared _) eq_refl (or_introl eq_refl)).
  split; reflexivity.
Defined.

Lemma jobContentExists_boolean_witness :
  fst (call (jobContentExists (Demo.ext (Demo.answers (VObj [("exists", VNum 1)])))
               (VStr "h1") (VStr "f.txt"))
            (Demo.ready (Demo.answers (VObj [("exists", VNum 1)])))) =
    Resolved (VBool true) /\
  fst (call (jobContentExists (Demo.ext (Demo.answers (VObj [])))
               (VStr "h1") (VStr "f.txt"))
            (Demo.ready (Demo.answers (VObj [])))) =
    Resolved (VBool false).
Proof.
  split.
  - destruct (@jobContentExists_boolean _
                (Demo.ext (Demo.answers (VObj [("exists", VNum 1)])))
                (VStr "h1") (VStr "f.txt")
                (Demo.ready (Demo.answers (VObj [("exists", VNum 1)]))))
      as (_ & H).
    apply (H Demo.token_client Demo.plain_client Demo.ok_response
             (VObj [("exists", VNum 1)]) Demo.ok_response
             (VObj [("exists", VNum 1)]) (VNum 1)
             (ready_prepared _) eq_refl (fun _ => eq_refl) eq_refl eq_refl).
  - destruct (@jobContentExists_boolean _ (Demo.ext (Demo.answers (VObj [])))
                (VStr "h1") (VStr "f.txt")
                (Demo.ready (Demo.answers (VObj []))))
      as (_ & H).
    apply (H Demo.token_client Demo.plain_client Demo.ok_response
             (VObj []) Demo.ok_response (VObj []) VUndefined
             (ready_prepared _) eq_refl (fun _ => eq_refl) eq_refl eq_refl).
Defined.

Lemma contentRetrieve_extension_witness :
  let ext := Demo.ext (Demo.answers (VObj [])) in
  let w := Demo.ready (Demo.answers (VObj [])) in
  let request := VObj [("url", VStr "http://files.example.com/a/clip.mp4")] in
  wire (snd (call (contentRetrieve ext request VUndefined) w)) =
    [(Demo.token_client,
      {| Request.url := VStr "https://example.com:5971/content/retrieve";
         Request.json := VObj [("request", request); ("extension", VStr "mp4")];
         Request.formData := None |})] /\
  wire (snd (call (contentRetrieve ext request (VStr "webm")) w)) =
    [(Demo.token_client,
      {| Request.url := VStr "https://example.com:5971/content/retrieve";
         Request.json := VObj [("request", request); ("extension", VStr "webm")];
         Request.formData := None |})].
Proof.
  intros ext w request. split.
  - destruct (@contentRetrieve_extension _ ext request VUndefined w
                Demo.token_client (ready_prepared _)) as (_ & H).
    destruct (H (VStr "http://files.example.com/a/clip.mp4") ".mp4"%string
                eq_refl eq_refl eq_refl) as (Hw & _).
    exact Hw.
  - destruct (@contentRetrieve_extension _ ext request (VStr "webm") w
                Demo.token_client (ready_prepared _)) as (H & _).
    exact (H eq_refl).
Defined.

Lemma contentRetrieve_throws_without_url_witness :
  call (contentRetrieve (Demo.ext Demo.unreachable) VUndefined VUndefined)
       (Demo.ready Demo.unreachable) =
    (Thrown TypeError, Demo.ready Demo.unreachable).
Proof.
  apply (@contentRetrieve_throws_without_url _ (Demo.ext Demo.unreachable)
           VUndefined VUndefined (Demo.ready Demo.unreachable) TypeError
           eq_refl (or_introl eq_refl)).
Defined.

Lemma contentUpload_opens_file_first_witness :
  let missing := Raised (VStr "ENOENT") in
  call (contentUpload (without_file (Demo.ext Demo.unreachable) missing)
          (VStr "/tmp/a.bin"))
       (Demo.ready Demo.unreachable) =
    (Rejected missing, Demo.ready Demo.unreachable) /\
  wire (snd (call (contentUpload (Demo.ext Demo.unreachable) (VStr "/tmp/a.bin"))
                  (Demo.ready Demo.unreachable))) =
    [(Demo.token_client,
      {| Request.url := VStr "https://example.com:5971/content/upload";
         Request.json := VBool true;
         Request.formData :=
           Some (VObj [("file", VObj [("path", VStr "/tmp/a.bin")])]) |})].
Proof.
  intros missing. split.
  - destruct (@contentUpload_opens_file_first _
                (without_file (Demo.ext Demo.unreachable) missing)
                (VStr "/tmp/a.bin") (Demo.ready Demo.unreachable)
                Demo.token_client Demo.plain_client
                (conj eq_refl (conj eq_refl eq_refl)) eq_refl) as (H & _).
    apply H. right. exists (VStr "/tmp/a.bin"). split; reflexivity.
  - destruct (@contentUpload_opens_file_first _ (Demo.ext Demo.unreachable)
                (VStr "/tmp/a.bin") (Demo.ready Demo.unreachable)
                Demo.token_client Demo.plain_client
                (ready_prepared _) eq_refl) as (_ & H).
    apply (H (VStr "/tmp/a.bin") (VObj [("path", VStr "/tmp/a.bin")]));
      reflexivity.
Defined.

Lemma connect_failure_still_connected_witness :
  let down := Raised (VStr "no request client") in
  let ext := without_setup (Demo.ext Demo.unreachable) down in
  fst (call (connect ext (VStr "example.com") (VNum 8443)) Demo.fresh) =
    Rejected down /\
  isConnected (that (snd (call (connect ext (VStr "example.com") (VNum 8443))
                               Demo.fresh))) = true /\
  api (that (snd (call (connect ext (VStr "example.com") (VNum 8443))
                       Demo.fresh))) = EmptyObject.
Proof.
  intros down ext.
  destruct (@connect_failure_still_connected _ ext (VStr "example.com")
              (VNum 8443) Demo.fresh down eq_refl) as (Hr & Hc & Ha & _).
  split; [exact Hr|]. split; [exact Hc|exact Ha].
Defined.

Lemma connect_is_sticky_witness :
  let ext := Demo.ext Demo.unreachable in
  let w1 := snd (call (connect ext (VStr "example.com") (VNum 8443)) Demo.fresh) in
  fst (call (connect ext VUndefined VUndefined) w1) =
    Resolved (VStr "example.com") /\
  Opts.prism (opts (that (snd (call (connect ext VUndefined VUndefined) w1)))) =
    {| PrismOpts.host := VStr "example.com"; PrismOpts.port := VNum 8443 |}.
Proof.
  intros ext w1.
  destruct (@connect_is_sticky _ ext (VStr "example.com") (VNum 8443)
              VUndefined VUndefined Demo.fresh eq_refl eq_refl)
    as (_ & _ & Hr).
  split; [|reflexivity].
  apply (Hr {| Demo.options :=
                 {| PrismOpts.host := VStr "example.com";
                    PrismOpts.port := VNum 8443 |};
               Demo.headers := [] |}).
  reflexivity.
Defined.

Lemma connect_and_setSession_prepare_witness :
  let ext := Demo.ext Demo.unreachable in
  let w1 := snd (setSession (VStr "tok")
                   (snd (call (connect ext (VStr "example.com") VUndefined)
                              Demo.fresh))) in
  let w2 := snd (call (connect ext (VStr "example.com") VUndefined)
                      (snd (setSession (VStr "tok") Demo.fresh))) in
  call (prepare ext None VUndefined) w1 = (Resolved Demo.token_client, w1) /\
  call (prepare ext None VUndefined) w2 = (Resolved Demo.token_client, w2).
Proof.
  intros ext w1 w2.
  apply (@connect_and_setSession_prepare _ ext (VStr "example.com") VUndefined
           (VStr "tok") Demo.fresh Demo.plain_client Demo.token_client
           eq_refl eq_refl).
Defined.

Lemma login_then_prepare_witness :
  let token := VObj [("token", VStr "s1")] in
  let ext := Demo.ext (Demo.answers (VObj [("session", token)])) in
  let w := snd (call (connect ext (VStr "example.com") VUndefined) Demo.fresh) in
  let w' := snd (call (login ext (VStr "u") (VStr "p")) w) in
  call (prepare ext None VUndefined) w' =
    (Resolved {| Demo.options := Demo.example_com;
                 Demo.headers := [("X-OOSE-Token", VStr "s1")] |}, w').
Proof.
  intros token ext w w'.
  destruct (@login_then_prepare _ ext (VStr "u") (VStr "p") w
              Demo.plain_client
              {| Demo.options := Demo.example_com;
                 Demo.headers := [("X-OOSE-Token", VStr "s1")] |}
              Demo.ok_response (VObj [("session", token)])
              Demo.ok_response (VObj [("session", token)]) token
              eq_refl eq_refl eq_refl eq_refl eq_refl eq_refl eq_refl)
    as (_ & H).
  exact H.
Defined.

Lemma jobContentUrl_after_connect_witness :
  let ext := without_setup (Demo.ext Demo.unreachable) (Raised (VStr "down")) in
  jobContentUrl (VStr "h1") (VStr "f.txt")
    (snd (call (connect ext (VStr "example.com") (VNum 8443)) Demo.fresh)) =
    (Ok (VStr "https://example.com:8443/job/content/download/h1/f.txt"),
     snd (call (connect ext (VStr "example.com") (VNum 8443)) Demo.fresh)).
Proof.
  intros ext.
  apply (@jobContentUrl_after_connect _ ext (VStr "example.com") (VNum 8443)
           (VStr "h1") (VStr "f.txt") Demo.fresh
           eq_refl eq_refl eq_refl eq_refl).
Defined.

Lemma jobContentUrl_before_connect_witness :
  jobContentUrl (VStr "h1") (VStr "f.txt") Demo.fresh =
    (Ok (VStr "https://null:5971/job/content/download/h1/f.txt"), Demo.fresh).
Proof.
  apply (@jobContentUrl_before_connect Demo.client Load.none (VStr "h1")
           (VStr "f.txt") [] eq_refl eq_refl eq_refl eq_refl).
Defined.

Lemma urlPurchase_missing_fields_witness :
  urlPurchase VUndefined VUndefined Demo.fresh = (Err TypeError, Demo.fresh) /\
  urlPurchase (VObj [("ext", VStr "mp4")]) VUndefined Demo.fresh =
    (Ok (VStr "//cdn.oose.io/undefined/video.mp4"), Demo.fresh).
Proof.
  destruct (@urlPurchase_missing_fields Demo.client VUndefined Demo.fresh
              eq_refl eq_refl)
    as (H1 & H2 & _).
  split.
  - apply H1. left. reflexivity.
  - apply (H2 [("ext", VStr "mp4")] (VStr "mp4")); reflexivity.
Defined.
